(** * galaxy: the torrent metadata decoder, the HTTP tracker client and the
    peer session, embedded from [torrent/decoder.go], [tracker/httpTracker.go]
    (which also carries the [peer] package) and [main.go]. *)

From Stdlib Require Import ZArith Lia Bool Ascii String List.
From Stdlib Require Import Init.Byte Numbers.DecimalString.
From stdpp Require Import base option list strings gmap.

Open Scope Z_scope.

(** * Part I: the embedding *)

(** ** Outcomes of Go calls

    A Go call either returns a value, returns a non-nil [error], or panics.
    An [error] is modelled by its message. *)

Inductive panic : Type :=
| DivideByZero        (* runtime error: integer divide by zero *)
| IndexOutOfRange     (* runtime error: index out of range *)
| NilDereference      (* runtime error: invalid memory address or nil pointer dereference *)
| TypeAssertion.      (* interface conversion: x.(T) without the ok form *)

Inductive outcome (A : Type) : Type :=
| Ok (a : A)
| Err (msg : string)
| Panic (p : panic)
| OutOfFuel.          (* a loop of the model ran past its iteration budget *)
Arguments Ok {A} a.
Arguments Err {A} msg.
Arguments Panic {A} p.
Arguments OutOfFuel {A}.

#[global] Instance outcome_ret : MRet outcome := fun A a => Ok a.

#[global] Instance outcome_bind : MBind outcome := fun A B k m =>
  match m with
  | Ok a => k a
  | Err e => Err e
  | Panic p => Panic p
  | OutOfFuel => OutOfFuel
  end.

(** ** Go's [int]: 64-bit two's complement *)

Module GoInt.

Definition MinInt : Z := - 2 ^ 63.
Definition MaxInt : Z := 2 ^ 63 - 1.

Definition in_range (z : Z) : Prop := MinInt <= z <= MaxInt.

(** Wrap-around of an arithmetic result into the 64-bit range. *)
Definition wrap (z : Z) : Z := (z + 2 ^ 63) mod 2 ^ 64 - 2 ^ 63.

Definition add (a b : Z) : Z := wrap (a + b).
Definition sub (a b : Z) : Z := wrap (a - b).

(** [a / b]: truncated towards zero, panics on a zero divisor;
    [MinInt / -1] wraps back to [MinInt]. *)
Definition div (a b : Z) : outcome Z :=
  if b =? 0 then Panic DivideByZero else Ok (wrap (Z.quot a b)).

(** [a % b]: the sign follows the dividend, panics on a zero divisor. *)
Definition rem (a b : Z) : outcome Z :=
  if b =? 0 then Panic DivideByZero else Ok (Z.rem a b).

End GoInt.

(** ** Bytes

    A Go [string] is a sequence of bytes: [String.string]; a [[]byte] is a
    [list byte]; a nil slice is the empty list. *)

Definition byte_of_Z (z : Z) : byte := byte_of_ascii (ascii_of_N (Z.to_N (z mod 256))).
Definition Z_of_byte (b : byte) : Z := Z.of_N (Byte.to_N b).

Definition len (s : string) : Z := Z.of_nat (String.length s).

(** [s[i:j]] on a string: panics unless [0 <= i <= j <= len(s)]. *)
Definition str_slice (s : string) (i j : Z) : outcome string :=
  if (0 <=? i) && (i <=? j) && (j <=? len s)
  then Ok (substring (Z.to_nat i) (Z.to_nat (j - i)) s)
  else Panic IndexOutOfRange.

(** The [j]-th 20-byte window of a string: bytes [20*j .. 20*j+20). *)
Definition chunk20 (s : string) (j : nat) : list byte :=
  take 20 (drop (20 * j) (list_byte_of_string s)).

(** Big-endian serialisation of a 32-bit word. *)
Definition be32 (w : Z) : list byte :=
  [byte_of_Z (Z.shiftr w 24); byte_of_Z (Z.shiftr w 16);
   byte_of_Z (Z.shiftr w 8); byte_of_Z w].

(** ** [crypto/sha1]

    The digest of the Go standard library (FIPS 180-4), written over 32-bit
    words held in [Z]. *)

Module SHA1.

Definition w32 (z : Z) : Z := z mod 2 ^ 32.
Definition add32 (a b : Z) : Z := w32 (a + b).
Definition rotl (n x : Z) : Z :=
  w32 (Z.lor (Z.shiftl x n) (Z.shiftr x (32 - n))).
Definition not32 (x : Z) : Z := Z.lxor x (2 ^ 32 - 1).

(** Message padding: a one bit, zeros up to 56 mod 64 bytes, then the bit
    length on 64 bits, big-endian. *)
Definition be64 (n : Z) : list Z :=
  map (fun k => Z.shiftr n (8 * k) mod 256) [7; 6; 5; 4; 3; 2; 1; 0].

Definition pad (msg : list Z) : list Z :=
  let l := Z.of_nat (List.length msg) in
  msg ++ [128] ++ repeat 0 (Z.to_nat ((55 - l) mod 64)) ++ be64 (8 * l).

Definition word_of (b3 b2 b1 b0 : Z) : Z :=
  Z.lor (Z.shiftl b3 24) (Z.lor (Z.shiftl b2 16) (Z.lor (Z.shiftl b1 8) b0)).

Fixpoint words (bs : list Z) : list Z :=
  match bs with
  | b3 :: b2 :: b1 :: b0 :: rest => word_of b3 b2 b1 b0 :: words rest
  | _ => []
  end.

(** The message schedule: 16 block words extended to 80. *)
Fixpoint extend (n : nat) (w : list Z) : list Z :=
  match n with
  | O => w
  | S n' =>
      let t := List.length w in
      let x := Z.lxor (Z.lxor (nth (t - 3) w 0) (nth (t - 8) w 0))
                      (Z.lxor (nth (t - 14) w 0) (nth (t - 16) w 0)) in
      extend n' (w ++ [rotl 1 x])
  end.

Definition state : Type := (Z * Z * Z * Z * Z)%type.

Definition init : state :=
  (0x67452301, 0xEFCDAB89, 0x98BADCFE, 0x10325476, 0xC3D2E1F0).

Definition f (t : nat) (b c d : Z) : Z :=
  if (t <? 20)%nat then Z.lor (Z.land b c) (Z.land (not32 b) d)
  else if (t <? 40)%nat then Z.lxor b (Z.lxor c d)
  else if (t <? 60)%nat then Z.lor (Z.land b c) (Z.lor (Z.land b d) (Z.land c d))
  else Z.lxor b (Z.lxor c d).

Definition K (t : nat) : Z :=
  if (t <? 20)%nat then 0x5A827999
  else if (t <? 40)%nat then 0x6ED9EBA1
  else if (t <? 60)%nat then 0x8F1BBCDC
  else 0xCA62C1D6.

Definition round (s : state) (tw : nat * Z) : state :=
  let '(a, b, c, d, e) := s in
  let '(t, w) := tw in
  let temp := add32 (add32 (add32 (add32 (rotl 5 a) (f t b c d)) e) w) (K t) in
  (temp, a, rotl 30 b, c, d).

Definition block (h : state) (bs : list Z) : state :=
  let w := extend 64 (words bs) in
  let '(a, b, c, d, e) := fold_left round (combine (seq 0 80) w) h in
  let '(h0, h1, h2, h3, h4) := h in
  (add32 h0 a, add32 h1 b, add32 h2 c, add32 h3 d, add32 h4 e).

Fixpoint blocks (n : nat) (h : state) (bs : list Z) : state :=
  match n with
  | O => h
  | S n' => blocks n' (block h (firstn 64 bs)) (skipn 64 bs)
  end.

Definition sum (msg : list byte) : list byte :=
  let padded := pad (map Z_of_byte msg) in
  let '(h0, h1, h2, h3, h4) :=
    blocks (List.length padded / 64) init padded in
  be32 h0 ++ be32 h1 ++ be32 h2 ++ be32 h3 ++ be32 h4.

End SHA1.

(** ** Package [torrent]: [decoder.go] *)

(** The struct [file]; its fields are [length] and [path] in the source. *)
Record file : Type := mkFile {
  file_length : Z;
  file_path : list string
}.

Record Info : Type := mkInfo {
  Announce : string;
  AnnounceList : list (list string);
  PieceSize : Z;
  Length : Z;
  Name : string;
  files_ : list file;          (* the unexported field [files] *)
  PieceHashes : list (list byte);
  InfoHash : list byte;
  ChunkSize : Z
}.

Definition chunkSize : Z := 16384.

Definition set_InfoHash (hash : list byte) (info : Info) : Info :=
  mkInfo (Announce info) (AnnounceList info) (PieceSize info) (Length info)
         (Name info) (files_ info) (PieceHashes info) hash (ChunkSize info).

(** The struct's [int] fields hold 64-bit values. *)
Definition Info_ints_ok (info : Info) : Prop :=
  GoInt.in_range (PieceSize info) /\ GoInt.in_range (Length info).

Definition CalculateLastPieceSize (info : Info) : outcome (Z * Z) :=
  lastPieceSize ← GoInt.rem (Length info) (PieceSize info);
  numberOfPieces ← GoInt.div (Length info) (PieceSize info);
  if negb (lastPieceSize =? 0)
  then Ok (lastPieceSize, GoInt.add numberOfPieces 1)
  else Ok (PieceSize info, numberOfPieces).

(** Mathematical reference points of the specification: the ceiling of the
    rational quotient and the remainder of Euclidean division. *)
Definition ceil_div (a b : Z) : Z := - ((- a) / b).

Definition spec_last_piece_size (total ps : Z) : Z :=
  if total mod ps =? 0 then ps else total mod ps.

(** *** Bencode values

    The parser, the value types [bInt], [bStr], [bList], [bDict] and their
    methods live in a file of the package that is not part of the sources at
    hand. The value constructors follow the type assertions of [decoder.go];
    the dictionary representation and the methods are parameters. *)

#[warnings="-register-all"]
Inductive Bencode (D : Type) : Type :=
| bInt (value : Z)
| bStr (value : string)
| bList (value : list (Bencode D))
| bDict (d : D).
Arguments bInt {D} value.
Arguments bStr {D} value.
Arguments bList {D} value.
Arguments bDict {D} d.

Class BencodeLib : Type := {
  bDictT : Type;                                          (* the struct behind [*bDict] *)
  get : bDictT -> string -> option (Bencode bDictT);      (* [dict.get(key)], nil when absent *)
  ben_String : Bencode bDictT -> string;                  (* [ben.String()] *)
  ben_PrettyString : Bencode bDictT -> string;            (* [ben.PrettyString()] *)
  Parse : string -> outcome (Bencode bDictT)              (* [NewParser(str).Parse()] *)
}.

Section Decoder.
Context `{BencodeLib}.

Definition wrongTypeError (str t : string) : string :=
  "wrong type, " ++ "-" ++ str ++ "- has to be" ++ t.

Definition fromDict (dict : bDictT) (key : string) : outcome (Bencode bDictT) :=
  match get dict key with
  | None => Err (key ++ " is missing in the dictionary")
  | Some value => Ok value
  end.

(** [intValue] returns [(int, bool, error)]; the error is [None] for nil. *)
Definition intValue (dict : bDictT) (key : string) : Z * bool * option string :=
  match fromDict dict key with
  | Ok (bInt value) => (value, true, None)
  | Ok _ => (0, true, Some (wrongTypeError key "int"))
  | Err err => (0, false, Some err)
  | Panic _ | OutOfFuel => (0, false, None)   (* [fromDict] never ends this way *)
  end.

Definition strValue (dict : bDictT) (key : string) : outcome string :=
  benName ← fromDict dict key;
  match benName with
  | bStr value => Ok value
  | _ => Err (wrongTypeError key "string")
  end.

(** The body of [for _, ls := range benList.value] in [announceList]. *)
Fixpoint announceList_loop (values : list (Bencode bDictT)) (list_ : list (list string))
  : outcome (list (list string)) :=
  match values with
  | [] => Ok list_
  | ls :: values' =>
      match ls with
      | bList l =>
          let internalList := map ben_PrettyString l in
          announceList_loop values' (list_ ++ [internalList])
      | _ => Err (wrongTypeError "announce-list entry" "list")
      end
  end.

Definition announceList (bencs : bDictT) : outcome (list (list string)) :=
  match fromDict bencs "announce-list" with
  | Ok (bList value) => announceList_loop value []
  | Ok _ => Err (wrongTypeError "announce-list entry" "list of lists")
  | _ => Ok []                     (* [return nil, nil] *)
  end.

(** The body of [for _, v := range benList.value] in [files]; the
    assertion of [v] to a dictionary is of the panicking form (no [ok]). *)
Fixpoint files_loop (values : list (Bencode bDictT)) (files : list file)
  : outcome (list file) :=
  match values with
  | [] => Ok files
  | v :: values' =>
      match v with
      | bDict d =>
          let '(length, _, err) := intValue d "length" in
          match err with
          | Some e => Err e
          | None =>
              benPath ← fromDict d "path";
              match benPath with
              | bList benPathList =>
                  let path := map ben_PrettyString benPathList in
                  files_loop values' (files ++ [mkFile length path])
              | _ => Ok []         (* [return nil, nil] *)
              end
          end
      | _ => Panic TypeAssertion
      end
  end.

Definition files (infoDict : bDictT) : outcome (list file) :=
  match fromDict infoDict "files" with
  | Ok (bList value) => files_loop value []
  | Ok _ => Err (wrongTypeError "files" "list")
  | _ => Ok []                     (* [return nil, nil] *)
  end.

(** [for i := 0; i <= len-20; i += 20]: one iteration per unit of fuel. *)
Fixpoint pieceHashes_loop (fuel : nat) (pieces : string) (len_ i : Z)
    (pieceHashes : list (list byte)) : outcome (list (list byte)) :=
  match fuel with
  | O => OutOfFuel
  | S fuel' =>
      if i <=? GoInt.sub len_ 20 then
        hash ← str_slice pieces i (GoInt.add i 20);
        pieceHashes_loop fuel' pieces len_ (GoInt.add i 20)
          (pieceHashes ++ [list_byte_of_string hash])
      else Ok pieceHashes
  end.

Definition pieceHashes (pieces : string) : outcome (list (list byte)) :=
  let len_ := len pieces in
  r ← GoInt.rem len_ 20;
  if negb (r =? 0) then Err "piece hash has to be 20 bytes long"
  else pieceHashes_loop (S (String.length pieces)) pieces len_ 0 [].

Definition Decode (str : string) : outcome Info :=
  ben ← Parse str;
  match ben with
  | bDict dict =>
      announce ← strValue dict "announce";
      announceList ← announceList dict;
      info ← fromDict dict "info";
      match info with
      | bDict infoDict =>
          let '(pieceLength, _, err) := intValue infoDict "piece length" in
          match err with
          | Some e => Err e
          | None =>
              let '(length, isSingleFile, err) := intValue infoDict "length" in
              match (if isSingleFile then err else None) with
              | Some e => Err e
              | None =>
                  name ← strValue infoDict "name";
                  files ← files infoDict;
                  if bool_decide (files = []) && negb isSingleFile
                  then Err "No files to download in the torrent file"
                  else
                    pieces ← strValue infoDict "pieces";
                    pieceHash ← pieceHashes pieces;
                    let infoDictStr := ben_String (bDict infoDict) in
                    let infoHash := SHA1.sum (list_byte_of_string infoDictStr) in
                    Ok (mkInfo announce announceList pieceLength length name
                               files pieceHash infoHash chunkSize)
              end
          end
      | _ => Err (wrongTypeError "info" "dictionary")
      end
  | _ => Err (wrongTypeError "Torrent content " "dictionary")
  end.

End Decoder.

Arguments fromDict : simpl never.
Arguments intValue : simpl never.
Arguments strValue : simpl never.
Arguments announceList : simpl never.
Arguments files : simpl never.
Arguments pieceHashes : simpl never.
Arguments Decode : simpl never.

(** ** Package [tracker]: [httpTracker.go] *)

(** The fields of [init.State] and [init.Configuration] that the tracker
    and [main] read; the package itself is not among the sources. *)
Record State : Type := mkState {
  Uploaded : Z;
  Downloaded : Z;
  Left : Z
}.

Record Configuration : Type := mkConf {
  PeerID : string;
  Port : Z;
  TorrentPath : string
}.

(** [strconv.Itoa]: decimal, with a leading minus sign for negatives. *)
Definition Itoa (i : Z) : string := NilZero.string_of_int (Z.to_int i).

(** [net/url]: parsing and printing are the standard library's and stay
    parameters. [url.Values] is a [map[string][]string]. *)
Class UrlLib : Type := {
  URL : Type;
  url_Parse : string -> outcome URL;                 (* [url.Parse] *)
  set_RawQuery : string -> URL -> URL;               (* [u.RawQuery = q] *)
  URL_String : URL -> string;                        (* [u.String()] *)
  Values_Encode : gmap string (list string) -> string  (* [v.Encode()] *)
}.

(** [v.Add(key, value)]: [v[key] = append(v[key], value)]. *)
Definition Values_Add (key value : string) (v : gmap string (list string))
  : gmap string (list string) :=
  <[key := default [] (v !! key) ++ [value]]> v.

(** [net/http] and the tracker-response decoder of package [torrent], both
    absent; [torrent.PeerInfo] is kept abstract. *)
Record Response : Type := mkResponse {
  StatusCode : Z;
  Body : outcome string          (* the result of [ioutil.ReadAll(resp.Body)] *)
}.

Record TrackerRsp (PeerInfo : Type) : Type := mkTrackerRsp {
  PeersInfo : list PeerInfo
}.
Arguments mkTrackerRsp {PeerInfo} PeersInfo.
Arguments PeersInfo {PeerInfo} t.

Class HttpLib : Type := {
  PeerInfo : Type;
  http_Get : string -> outcome Response;                       (* [http.Get] *)
  TrackerRspDecode : string -> outcome (TrackerRsp PeerInfo)   (* [NewTrackerRspDecoder(s).Decode()] *)
}.

Record httpTracker : Type := mkHttpTracker {
  url : string
}.

Section Tracker.
Context `{UrlLib} `{HttpLib}.

Definition prepareURL (initState : State) (peerID : string) (port : Z) (info : Info)
  : outcome string :=
  match url_Parse (Announce info) with
  | Ok baseURL =>
      let params : gmap string (list string) := ∅ in
      let params := Values_Add "info_hash" "lol" params in
      let params := Values_Add "peer_id" peerID params in
      let params := Values_Add "port" (Itoa port) params in
      let params := Values_Add "compact" "1" params in
      let params := Values_Add "event" "started" params in
      let params := Values_Add "uploaded" (Itoa (Uploaded initState)) params in
      let params := Values_Add "downloaded" (Itoa (Downloaded initState)) params in
      let params := Values_Add "left" (Itoa (Left initState)) params in
      let baseURL := set_RawQuery (Values_Encode params) baseURL in
      Ok (URL_String baseURL)
  | Err err => Err ("Malformed URL: " ++ err)
  | Panic p => Panic p
  | OutOfFuel => OutOfFuel
  end.

Definition NewTracker (info : Info) (initState : State) (conf : Configuration)
  : outcome httpTracker :=
  url ← prepareURL initState (PeerID conf) (Port conf) info;
  Ok (mkHttpTracker url).

Definition Peers (t : httpTracker) : outcome (list PeerInfo) :=
  resp ← http_Get (url t);
  if negb (StatusCode resp =? 200)
  then Err ("Can't reach http tracker " ++ url t)
  else
    bodyStr ← Body resp;
    match TrackerRspDecode bodyStr with
    | Ok rsp => Ok (PeersInfo rsp)
    | Err err => Err (bodyStr ++ " | " ++ err)
    | Panic p => Panic p
    | OutOfFuel => OutOfFuel
    end.

End Tracker.

(** ** Package [peer] (second part of [httpTracker.go]) *)

(** The packet kinds [NewPacket] dispatches on. *)
Module PacketID.
Inductive t : Type :=
| keepAlaive | choke | unchoke | interested | notInterested | have
| bitfield | request | piece | cancel | port | unknown.

#[global] Instance eq_dec : EqDecision t.
Proof. solve_decision. Defined.
End PacketID.

(** A [Packet] answers [ID()] and [Payload()]. *)
Record Packet : Type := mkPacket {
  ID : PacketID.t;
  Payload : list byte
}.

(** Modelled from the spec: the encoder [encodePieceRequest] of the absent
    message codec. A Request carries three 4-byte big-endian fields: piece
    index, byte offset, block length. *)
Definition encodePieceRequest (piece offset size : Z) : Packet :=
  mkPacket PacketID.request (be32 piece ++ be32 offset ++ be32 size).

(** Modelled from the spec: the encoder [encodeInterested] of the absent
    message codec. Interested has no payload. *)
Definition encodeInterested : Packet :=
  mkPacket PacketID.interested [].

(** The decoders of the same codec; the handlers below drop what they
    return, so they stay parameters. *)
Class PacketCodec : Type := {
  decodeRequest : list byte -> Z * Z * Z;
  decodePiece : list byte -> Z * Z * list byte
}.

Inductive MSG : Type :=
| handshakeError.

(** The transport behind [p.net]: the packets handed to [Send], oldest
    first. Each entry also keeps the value the session's [chocked] flag had
    at the moment of the call, which is what the choke discipline is about. *)
Record Transmission : Type := mkTransmission {
  packet : Packet;
  chocked_at_send : bool
}.

Record simplePeer : Type := mkPeer {
  msgs : list MSG;               (* what was written to the channel *)
  net : list Transmission;
  chocked : bool;
  bitfield : list byte;
  interested : bool
}.

Definition set_chocked (b : bool) (p : simplePeer) : simplePeer :=
  mkPeer (msgs p) (net p) b (bitfield p) (interested p).
Definition set_bitfield (bs : list byte) (p : simplePeer) : simplePeer :=
  mkPeer (msgs p) (net p) (chocked p) bs (interested p).
Definition set_interested (b : bool) (p : simplePeer) : simplePeer :=
  mkPeer (msgs p) (net p) (chocked p) (bitfield p) b.

(** [newPeer]: only the channel and the transport are set; the flags start
    from Go's zero values. *)
Definition newPeer : simplePeer := mkPeer [] [] false [] false.

Section Peer.
Context `{PacketCodec}.

(** [p.send(packet)]: [p.net.Send(packet)]. *)
Definition send (pkt : Packet) (p : simplePeer) : simplePeer :=
  mkPeer (msgs p) (net p ++ [mkTransmission pkt (chocked p)])
         (chocked p) (bitfield p) (interested p).

(** [start], given what [p.net.SendHandshake()] returned. *)
Definition start (handshake : option string) (p : simplePeer) : simplePeer :=
  match handshake with
  | Some err => mkPeer (msgs p ++ [handshakeError]) (net p)
                       (chocked p) (bitfield p) (interested p)
  | None => p
  end.

Definition onKeepAlive (p : simplePeer) : simplePeer := p.

Definition onChoke (p : simplePeer) : simplePeer :=
  set_chocked true p.

Definition onUnchoke (p : simplePeer) : simplePeer :=
  let p := set_chocked false p in
  let packet := encodePieceRequest 0 0 16384 in
  send packet p.

Definition onInterested (p : simplePeer) : simplePeer :=
  set_interested true p.

Definition onNotInterested (p : simplePeer) : simplePeer :=
  set_interested false p.

Definition onHave (payload : list byte) (p : simplePeer) : simplePeer :=
  let packet := encodeInterested in
  send packet p.

Definition onBitfield (bitfield : list byte) (p : simplePeer) : simplePeer :=
  let p := set_bitfield bitfield p in
  let packet := encodeInterested in
  send packet p.

Definition onRequest (piece offset size : Z) (p : simplePeer) : simplePeer := p.

Definition onPiece (piece offset : Z) (payload : list byte) (p : simplePeer)
  : simplePeer := p.

Definition onCancel (p : simplePeer) : simplePeer := p.
Definition onPort (p : simplePeer) : simplePeer := p.
Definition onUnknown (p : simplePeer) : simplePeer := p.

Definition NewPacket (pkt : Packet) (p : simplePeer) : simplePeer :=
  match ID pkt with
  | PacketID.keepAlaive => onKeepAlive p
  | PacketID.choke => onChoke p
  | PacketID.unchoke => onUnchoke p
  | PacketID.interested => onInterested p
  | PacketID.notInterested => onNotInterested p
  | PacketID.have => onHave (Payload pkt) p
  | PacketID.bitfield => onBitfield (Payload pkt) p
  | PacketID.request =>
      let '(piece, offset, size) := decodeRequest (Payload pkt) in
      onRequest piece offset size p
  | PacketID.piece =>
      let '(piece, offset, payload) := decodePiece (Payload pkt) in
      onPiece piece offset payload p
  | PacketID.cancel => onCancel p
  | PacketID.port => onPort p
  | PacketID.unknown => onUnknown p
  end.

(** The session fed a sequence of inbound packets, in arrival order. *)
Definition receive (pkts : list Packet) (p : simplePeer) : simplePeer :=
  fold_left (fun p pkt => NewPacket pkt p) pkts p.

(** The choke discipline on a transport log: every Request in it went out
    while the flag was clear. *)
Definition request_unchoked (tr : Transmission) : Prop :=
  ID (packet tr) = PacketID.request -> chocked_at_send tr = false.

End Peer.

(** ** [main.go] *)

(** What the process did when [main] ended. *)
Inductive MainResult (P : Type) : Type :=
| Printed (line : string)        (* [fmt.Println(...)] then [return] *)
| Crashed (p : panic)            (* an unrecovered panic: the process aborts *)
| Unfinished                     (* the model ran out of fuel *)
| SentTo (peer : P).             (* reached [network.NewNetwork(peers[0], h)] and [net.Send()] *)
Arguments Printed {P} line.
Arguments Crashed {P} p.
Arguments Unfinished {P}.
Arguments SentTo {P} peer.

(** The environment [main] runs in: [init.NewConf()], [init.NewInitState()]
    and the file system behind [ioutil.ReadFile]. *)
Class Process : Type := {
  NewConf : Configuration;
  NewInitState : State;
  ReadFile : string -> outcome string
}.

Section Main.
Context `{BencodeLib} `{UrlLib} `{HttpLib} `{Process}.

Definition main : MainResult PeerInfo :=
  let conf := NewConf in
  let initState := NewInitState in
  match ReadFile (TorrentPath conf) with
  | Err err => Printed ("File reading error " ++ err)
  | Panic p => Crashed p
  | OutOfFuel => Unfinished
  | Ok data =>
      match Decode data with
      | Err err => Printed err
      | Panic p => Crashed p
      | OutOfFuel => Unfinished
      | Ok info =>
          (* [tracker, _ := tracker.NewTracker(...)]: the error is dropped
             and [tracker] is then the nil interface *)
          let tracker := NewTracker info initState conf in
          let peers :=
            match tracker with
            | Ok t => Peers t
            | Err _ => Panic NilDereference
            | Panic p => Panic p
            | OutOfFuel => OutOfFuel
            end in
          match peers with
          | Err err => Printed err
          | Panic p => Crashed p
          | OutOfFuel => Unfinished
          | Ok peers =>
              match peers with
              | peer0 :: _ => SentTo peer0
              | [] => Crashed IndexOutOfRange
              end
          end
      end
  end.

End Main.

(** ** Reference collaborators

    Executable stand-ins for the absent parts, so that the embedding can be
    run end to end on concrete torrent files: a bencode reader and writer, a
    minimal URL library, a scripted HTTP round trip and process environment. *)

Module Reference.

#[warnings="-register-all"]
Inductive Ben : Type :=
| BInt (z : Z)
| BStr (s : string)
| BList (l : list Ben)
| BDict (d : list (string * Ben)).

Definition dict : Type := list (string * Ben).

Fixpoint view (b : Ben) : Bencode dict :=
  match b with
  | BInt z => bInt z
  | BStr s => bStr s
  | BList l => bList (map view l)
  | BDict d => bDict d
  end.

Fixpoint assoc (key : string) (d : dict) : option Ben :=
  match d with
  | [] => None
  | (k, v) :: d' => if String.eqb k key then Some v else assoc key d'
  end.

Definition str_concat (l : list string) : string :=
  fold_right String.append EmptyString l.

Fixpoint encode (b : Ben) : string :=
  match b with
  | BInt z => "i" ++ Itoa z ++ "e"
  | BStr s => Itoa (len s) ++ ":" ++ s
  | BList l => "l" ++ str_concat (map encode l) ++ "e"
  | BDict d =>
      "d" ++ str_concat (map (fun kv => (Itoa (len (fst kv)) ++ ":" ++ fst kv
                                         ++ encode (snd kv))%string) d) ++ "e"
  end.

Fixpoint encode_view (b : Bencode dict) : string :=
  match b with
  | bInt z => "i" ++ Itoa z ++ "e"
  | bStr s => Itoa (len s) ++ ":" ++ s
  | bList l => "l" ++ str_concat (map encode_view l) ++ "e"
  | bDict d => encode (BDict d)
  end.

Definition is_digit (c : ascii) : bool :=
  let n := N_of_ascii c in ((48 <=? n) && (n <=? 57))%N.

(** Leading decimal digits of [s], their value, and what follows. *)
Fixpoint read_digits (s : string) (acc : Z) : Z * string :=
  match s with
  | String c s' =>
      if is_digit c then read_digits s' (10 * acc + (Z.of_N (N_of_ascii c) - 48))
      else (acc, s)
  | EmptyString => (acc, s)
  end.

Definition read_int (s : string) : option (Z * string) :=
  let '(neg, s) := match s with
                   | String "-" s' => (true, s')
                   | _ => (false, s)
                   end in
  match read_digits s 0 with
  | (z, String "e" rest) => Some (if neg : bool then - z else z, rest)
  | _ => None
  end.

Definition read_str (s : string) : option (string * string) :=
  match read_digits s 0 with
  | (n, String ":" rest) =>
      if Z.to_nat n <=? String.length rest
      then Some (substring 0 (Z.to_nat n) rest,
                 substring (Z.to_nat n) (String.length rest - Z.to_nat n) rest)
      else None
  | _ => None
  end%nat.

Fixpoint read (fuel : nat) (s : string) : option (Ben * string) :=
  match fuel with
  | O => None
  | S fuel' =>
      match s with
      | String "i" rest => '(z, rest') ← read_int rest; Some (BInt z, rest')
      | String "l" rest => '(l, rest') ← read_list fuel' rest; Some (BList l, rest')
      | String "d" rest => '(d, rest') ← read_dict fuel' rest; Some (BDict d, rest')
      | _ => '(v, rest') ← read_str s; Some (BStr v, rest')
      end
  end
with read_list (fuel : nat) (s : string) : option (list Ben * string) :=
  match fuel with
  | O => None
  | S fuel' =>
      match s with
      | String "e" rest => Some ([], rest)
      | _ =>
          '(x, rest) ← read fuel' s;
          '(xs, rest') ← read_list fuel' rest;
          Some (x :: xs, rest')
      end
  end
with read_dict (fuel : nat) (s : string) : option (dict * string) :=
  match fuel with
  | O => None
  | S fuel' =>
      match s with
      | String "e" rest => Some ([], rest)
      | _ =>
          '(k, rest) ← read_str s;
          '(v, rest') ← read fuel' rest;
          '(kvs, rest'') ← read_dict fuel' rest';
          Some ((k, v) :: kvs, rest'')
      end
  end.

Definition parse (s : string) : outcome (Bencode dict) :=
  match read (S (String.length s)) s with
  | Some (b, EmptyString) => Ok (view b)
  | _ => Err "malformed bencode"
  end.

Definition bencode : BencodeLib := {|
  bDictT := dict;
  get := fun d key => view <$> assoc key d;
  ben_String := encode_view;
  ben_PrettyString := encode_view;
  Parse := parse
|}.

(** A fragment of [net/url], for URLs of printable characters without a
    fragment part. [url.Parse] refuses a leading colon with the error
    [parse "<url>": missing protocol scheme] and splits the query off at the
    first question mark; [String()] puts a non-empty query back after one.
    [Values.Encode] writes [key=value] pairs sorted by key and joined by
    ampersands, both sides escaped by [QueryEscape]. *)
Definition quote : string := String (ascii_of_nat 34) EmptyString.

Fixpoint cut_query (s : string) : string * string :=
  match s with
  | EmptyString => (EmptyString, EmptyString)
  | String "?" rest => (EmptyString, rest)
  | String c rest => let '(base, query) := cut_query rest in (String c base, query)
  end.

Definition url_parse (rawURL : string) : outcome (string * string) :=
  match rawURL with
  | String ":" _ =>
      Err ("parse " ++ quote ++ rawURL ++ quote ++ ": missing protocol scheme")
  | _ => Ok (cut_query rawURL)
  end.

Definition url_string (u : string * string) : string :=
  if String.eqb (snd u) "" then fst u else (fst u ++ "?" ++ snd u)%string.

Definition unreserved (c : ascii) : bool :=
  let n := N_of_ascii c in
  (((48 <=? n) && (n <=? 57)) || ((65 <=? n) && (n <=? 90)) ||
   ((97 <=? n) && (n <=? 122)) ||
   (n =? 45) || (n =? 95) || (n =? 46) || (n =? 126))%N.

Definition hex_digit (n : N) : ascii :=
  ascii_of_N (if (n <? 10)%N then 48 + n else 55 + n).

Fixpoint query_escape (s : string) : string :=
  match s with
  | EmptyString => EmptyString
  | String c rest =>
      if unreserved c then String c (query_escape rest)
      else if Ascii.eqb c " " then String "+" (query_escape rest)
      else String "%" (String (hex_digit (N_of_ascii c / 16))
                         (String (hex_digit (N_of_ascii c mod 16)) (query_escape rest)))
  end.

Fixpoint insert_by_key (kv : string * list string) (l : list (string * list string))
  : list (string * list string) :=
  match l with
  | [] => [kv]
  | kv' :: l' =>
      if String.leb (fst kv) (fst kv') then kv :: l else kv' :: insert_by_key kv l'
  end.

Definition sort_by_key (l : list (string * list string)) : list (string * list string) :=
  fold_right insert_by_key [] l.

Definition join_amp (l : list string) : string :=
  match l with
  | [] => EmptyString
  | x :: l' => fold_left (fun acc y => (acc ++ "&" ++ y)%string) l' x
  end.

Definition values_encode (v : gmap string (list string)) : string :=
  join_amp
    (flat_map (fun kv => map (fun value => (query_escape (fst kv) ++ "=" ++
                                            query_escape value)%string) (snd kv))
              (sort_by_key (map_to_list v))).

Definition urls : UrlLib := {|
  URL := string * string;
  url_Parse := url_parse;
  set_RawQuery := fun q u => (fst u, q);
  URL_String := url_string;
  Values_Encode := values_encode
|}.

(** A tracker answer in dictionary form: [peers] is a list of dictionaries
    with [ip] and [port]. *)
Definition peer_of (b : Ben) : list (string * Z) :=
  match b with
  | BDict d =>
      match assoc "ip" d, assoc "port" d with
      | Some (BStr ip), Some (BInt port) => [(ip, port)]
      | _, _ => []
      end
  | _ => []
  end.

Definition tracker_rsp (body : string) : outcome (TrackerRsp (string * Z)) :=
  match read (S (String.length body)) body with
  | Some (BDict d, EmptyString) =>
      match assoc "peers" d with
      | Some (BList l) => Ok (mkTrackerRsp (concat (map peer_of l)))
      | _ => Err "peers is missing in the dictionary"
      end
  | _ => Err "malformed bencode"
  end.

(** One scripted answer to every GET. *)
Definition http (answer : outcome Response) : HttpLib := {|
  PeerInfo := string * Z;
  http_Get := fun _ => answer;
  TrackerRspDecode := tracker_rsp
|}.

(** A process whose torrent file has the given content. *)
Definition process (content : outcome string) : Process := {|
  NewConf := mkConf "-GX0001-000000000000" 6881 "file.torrent";
  NewInitState := mkState 0 0 0;
  ReadFile := fun _ => content
|}.

Definition codec : PacketCodec := {|
  decodeRequest := fun _ => (0, 0, 0);
  decodePiece := fun _ => (0, 0, [])
|}.

(** A single-file torrent: 40 bytes in pieces of 16, three piece hashes. *)
Definition sample_pieces : string :=
  "aaaaaaaaaaaaaaaaaaaabbbbbbbbbbbbbbbbbbbbcccccccccccccccccccc".

Definition sample_hashes : list (list byte) :=
  [list_byte_of_string "aaaaaaaaaaaaaaaaaaaa";
   list_byte_of_string "bbbbbbbbbbbbbbbbbbbb";
   list_byte_of_string "cccccccccccccccccccc"].

Definition sample_torrent : string :=
  "d8:announce10:http://t/a4:infod6:lengthi40e4:name1:f12:piece lengthi16e6:pieces60:aaaaaaaaaaaaaaaaaaaabbbbbbbbbbbbbbbbbbbbccccccccccccccccccccee".

Definition sample_info : Info :=
  mkInfo "http://t/a" [] 16 40 "f" [] sample_hashes
    (SHA1.sum (list_byte_of_string
       "d6:lengthi40e4:name1:f12:piece lengthi16e6:pieces60:aaaaaaaaaaaaaaaaaaaabbbbbbbbbbbbbbbbbbbbcccccccccccccccccccce"))
    chunkSize.

(** The same torrent with a zero piece length. *)
Definition zero_piece_torrent : string :=
  "d8:announce10:http://t/a4:infod6:lengthi40e4:name1:f12:piece lengthi0e6:pieces60:aaaaaaaaaaaaaaaaaaaabbbbbbbbbbbbbbbbbbbbccccccccccccccccccccee".

Definition zero_piece_info_dict : dict :=
  [("length", BInt 40); ("name", BStr "f"); ("piece length", BInt 0);
   ("pieces", BStr sample_pieces)].

Definition zero_piece_dict : dict :=
  [("announce", BStr "http://t/a"); ("info", BDict zero_piece_info_dict)].

(** A torrent announcing a negative total length. *)
Definition negative_length_torrent : string :=
  "d8:announce10:http://t/a4:infod6:lengthi-5e4:name1:f12:piece lengthi3e6:pieces0:ee".

(** An inbound conversation: choked, unchoked, an announcement, choked
    again, a bitfield, unchoked again. *)
Definition conversation : list Packet :=
  [mkPacket PacketID.choke []; mkPacket PacketID.unchoke [];
   mkPacket PacketID.have [x00; x00; x00; x07]; mkPacket PacketID.choke [];
   mkPacket PacketID.bitfield [xff; x80]; mkPacket PacketID.unchoke []].

(** A multi-file torrent: two files, no [length] key. *)
Definition multi_file_torrent : string :=
  "d8:announce10:http://t/a4:infod5:filesld6:lengthi10e4:pathl1:a1:beed6:lengthi30e4:pathl1:ceee4:name1:f12:piece lengthi16e6:pieces60:aaaaaaaaaaaaaaaaaaaabbbbbbbbbbbbbbbbbbbbccccccccccccccccccccee".

Definition multi_file_info_dict : dict :=
  [("files", BList [BDict [("length", BInt 10); ("path", BList [BStr "a"; BStr "b"])];
                    BDict [("length", BInt 30); ("path", BList [BStr "c"])]]);
   ("name", BStr "f"); ("piece length", BInt 16); ("pieces", BStr sample_pieces)].

Definition multi_file_dict : dict :=
  [("announce", BStr "http://t/a"); ("info", BDict multi_file_info_dict)].

Definition multi_file_info : Info :=
  mkInfo "http://t/a" [] 16 0 "f"
    [mkFile 10 ["1:a"; "1:b"]; mkFile 30 ["1:c"]] sample_hashes
    (SHA1.sum (list_byte_of_string (encode (BDict multi_file_info_dict))))
    chunkSize.

(** The [files] list holds a good entry and then an integer. *)
Definition int_in_files_torrent : string :=
  "d8:announce10:http://t/a4:infod5:filesld6:lengthi10e4:pathl1:aeei7ee4:name1:f12:piece lengthi16e6:pieces0:ee".

Definition int_in_files_info_dict : dict :=
  [("files", BList [BDict [("length", BInt 10); ("path", BList [BStr "a"])]; BInt 7]);
   ("name", BStr "f"); ("piece length", BInt 16); ("pieces", BStr "")].

Definition int_in_files_dict : dict :=
  [("announce", BStr "http://t/a"); ("info", BDict int_in_files_info_dict)].


(** Neither [length] nor [files]. *)
Definition no_files_torrent : string :=
  "d8:announce10:http://t/a4:infod4:name1:f12:piece lengthi16e6:pieces0:ee".

Definition no_files_info_dict : dict :=
  [("name", BStr "f"); ("piece length", BInt 16); ("pieces", BStr "")].

Definition no_files_dict : dict :=
  [("announce", BStr "http://t/a"); ("info", BDict no_files_info_dict)].

(** A torrent whose announce URL starts with a colon: [url.Parse] finds no
    protocol scheme in it. *)
Definition no_scheme_torrent : string :=
  "d8:announce6:://t/a4:infod6:lengthi40e4:name1:f12:piece lengthi16e6:pieces0:ee".

Definition no_scheme_info : Info :=
  mkInfo "://t/a" [] 16 40 "f" [] []
    (SHA1.sum (list_byte_of_string "d6:lengthi40e4:name1:f12:piece lengthi16e6:pieces0:e"))
    chunkSize.

Definition no_scheme_error : string :=
  "parse " ++ quote ++ "://t/a" ++ quote ++ ": missing protocol scheme".

(** A torrent announcing a negative piece length. *)
Definition negative_piece_torrent : string :=
  "d8:announce10:http://t/a4:infod6:lengthi5e4:name1:f12:piece lengthi-1e6:pieces0:ee".

(** A tracker answer that fails: a 404. *)
Definition not_found : outcome Response := Ok (mkResponse 404 (Ok "d5:peerslee")).

(** A tracker answer without any peer, and one with a single peer. *)
Definition no_peers : outcome Response := Ok (mkResponse 200 (Ok "d5:peerslee")).

Definition one_peer : outcome Response :=
  Ok (mkResponse 200 (Ok "d5:peersld2:ip7:1.2.3.44:porti6881eeee")).

End Reference.

(** A torrent whose total length decoded as a negative integer. *)
Definition negative_length : Info :=
  mkInfo "http://t/a" [] 3 (-5) "f" []  []
    (SHA1.sum (list_byte_of_string "d6:lengthi-5e4:name1:f12:piece lengthi3e6:pieces0:e"))
    chunkSize.

(** A torrent whose piece length decoded as a negative integer. *)
Definition negative_piece_size : Info :=
  mkInfo "http://t/a" [] (-1) 5 "f" [] []
    (SHA1.sum (list_byte_of_string "d6:lengthi5e4:name1:f12:piece lengthi-1e6:pieces0:e"))
    chunkSize.

(** ** Reference points for the further properties *)

Section DecoderReference.
Context `{BencodeLib}.

(** A well-formed entry of the [files] list and the [file] it stands for: a
    dictionary with an integer [length] and a list [path]. *)
Definition file_of (v : Bencode bDictT) : option file :=
  match v with
  | bDict d =>
      match get d "length", get d "path" with
      | Some (bInt length), Some (bList benPathList) =>
          Some (mkFile length (map ben_PrettyString benPathList))
      | _, _ => None
      end
  | _ => None
  end.

(** A tier of the announce list: a list value, read as its printed items. *)
Definition tier_of (v : Bencode bDictT) : option (list string) :=
  match v with
  | bList l => Some (map ben_PrettyString l)
  | _ => None
  end.

Definition is_bDict (v : Bencode bDictT) : bool :=
  match v with bDict _ => true | _ => false end.


End DecoderReference.

(** The packet a session answers an inbound packet with, if any. *)
Definition reply (pkt : Packet) : option Packet :=
  match ID pkt with
  | PacketID.unchoke => Some (encodePieceRequest 0 0 16384)
  | PacketID.have | PacketID.bitfield => Some encodeInterested
  | _ => None
  end.

(** The value of a flag after a packet sequence: the last packet of kind
    [set] or [clear] decides, the initial value stands otherwise. *)
Definition last_flag (set clear : PacketID.t) (pkts : list Packet) (init : bool) : bool :=
  fold_left (fun b pkt =>
               if decide (ID pkt = set) then true
               else if decide (ID pkt = clear) then false else b)
            pkts init.

(** The payload of the last Bitfield packet of a sequence, if there is one. *)
Definition last_bitfield (pkts : list Packet) (init : list byte) : list byte :=
  fold_left (fun bf pkt =>
               if decide (ID pkt = PacketID.bitfield) then Payload pkt else bf)
            pkts init.

(** The packets no handler acts on. *)
Definition ignored (pkt : Packet) : bool :=
  match ID pkt with
  | PacketID.keepAlaive | PacketID.request | PacketID.piece
  | PacketID.cancel | PacketID.port | PacketID.unknown => true
  | _ => false
  end.

(** The eight keys of the tracker query. *)
Definition query_keys : gset string :=
  {[ "info_hash"; "peer_id"; "port"; "compact"; "event";
     "uploaded"; "downloaded"; "left" ]}.

(** * Part II: properties *)

(** ** 64-bit arithmetic *)

Lemma wrap_id z : GoInt.in_range z -> GoInt.wrap z = z.
Proof.
  unfold GoInt.in_range, GoInt.wrap, GoInt.MinInt, GoInt.MaxInt. intros Hz.
  rewrite Z.mod_small by lia. lia.
Qed.

Lemma wrap_in_range z : GoInt.in_range (GoInt.wrap z).
Proof.
  unfold GoInt.in_range, GoInt.wrap, GoInt.MinInt, GoInt.MaxInt.
  pose proof (Z.mod_pos_bound (z + 2 ^ 63) (2 ^ 64) ltac:(lia)). lia.
Qed.

Lemma ceil_div_exact a b : 0 < b -> a mod b = 0 -> ceil_div a b = a / b.
Proof.
  intros Hb Hm. unfold ceil_div. rewrite Z.div_opp_l_z by lia. lia.
Qed.

Lemma ceil_div_inexact a b : 0 < b -> a mod b <> 0 -> ceil_div a b = a / b + 1.
Proof.
  intros Hb Hm. unfold ceil_div. rewrite Z.div_opp_l_nz by lia. lia.
Qed.

(** ** [CalculateLastPieceSize] *)

Example calc_10_4 :
  CalculateLastPieceSize (mkInfo "" [] 4 10 "" [] [] [] chunkSize) = Ok (2, 3).
Proof. reflexivity. Qed.

Example calc_8_4 :
  CalculateLastPieceSize (mkInfo "" [] 4 8 "" [] [] [] chunkSize) = Ok (4, 2).
Proof. reflexivity. Qed.

(** A multi-file torrent decodes with [Length = 0]: no piece, and the last
    piece size is reported as a full piece. *)
Example calc_0_4 :
  CalculateLastPieceSize (mkInfo "" [] 4 0 "" [] [] [] chunkSize) = Ok (4, 0).
Proof. reflexivity. Qed.

(** With a positive piece size nothing wraps: the result is the truncated
    quotient and remainder, whatever the sign of [Length]. *)
Lemma CalculateLastPieceSize_truncated info :
  Info_ints_ok info -> 0 < PieceSize info ->
  CalculateLastPieceSize info =
    if Z.rem (Length info) (PieceSize info) =? 0
    then Ok (PieceSize info, Z.quot (Length info) (PieceSize info))
    else Ok (Z.rem (Length info) (PieceSize info),
             Z.quot (Length info) (PieceSize info) + 1).
Proof.
  intros [_ HL] Hps. unfold CalculateLastPieceSize, GoInt.rem, GoInt.div.
  destruct (Z.eqb_spec (PieceSize info) 0) as [?|_]; [lia|]. cbn.
  pose proof (Z.quot_rem' (Length info) (PieceSize info)) as Hqr.
  unfold GoInt.in_range, GoInt.MinInt, GoInt.MaxInt in HL.
  assert (Z.abs (Z.rem (Length info) (PieceSize info)) < PieceSize info) as Hr
    by (pose proof (Z.rem_bound_abs (Length info) (PieceSize info) ltac:(lia)); lia).
  assert ((0 <= Length info ->
             0 <= Z.quot (Length info) (PieceSize info) <= Length info) /\
          (Length info <= 0 ->
             Length info <= Z.quot (Length info) (PieceSize info) <= 0)) as [Hq Hq'].
  { split; intros Hsign.
    - pose proof (Z.quot_pos (Length info) (PieceSize info) Hsign Hps).
      pose proof (Z.rem_bound_pos (Length info) (PieceSize info) Hsign Hps). nia.
    - pose proof (Z.quot_opp_l (Length info) (PieceSize info) ltac:(lia)) as Hopp.
      pose proof (Z.quot_pos (- Length info) (PieceSize info) ltac:(lia) Hps).
      pose proof (Z.quot_rem' (- Length info) (PieceSize info)).
      pose proof (Z.rem_bound_pos (- Length info) (PieceSize info) ltac:(lia) Hps).
      nia. }
  rewrite (wrap_id (Z.quot _ _))
    by (unfold GoInt.in_range, GoInt.MinInt, GoInt.MaxInt; lia).
  destruct (Z.eqb_spec (Z.rem (Length info) (PieceSize info)) 0) as [Hz|Hnz];
    cbn; [done|].
  unfold GoInt.add. rewrite wrap_id; [done|].
  unfold GoInt.in_range, GoInt.MinInt, GoInt.MaxInt. nia.
Qed.

(** Go's [/] and [%] truncate towards zero; on a non-negative dividend they
    agree with floor division. *)
Lemma CalculateLastPieceSize_nonneg info :
  Info_ints_ok info -> 0 < PieceSize info -> 0 <= Length info ->
  CalculateLastPieceSize info =
    if Length info mod PieceSize info =? 0
    then Ok (PieceSize info, Length info / PieceSize info)
    else Ok (Length info mod PieceSize info, Length info / PieceSize info + 1).
Proof.
  intros [_ HL] Hps Hlen. unfold CalculateLastPieceSize, GoInt.rem, GoInt.div.
  destruct (Z.eqb_spec (PieceSize info) 0) as [?|_]; [lia|]. cbn.
  rewrite Z.rem_mod_nonneg, Z.quot_div_nonneg by lia.
  pose proof (Z.div_pos (Length info) (PieceSize info) Hlen Hps) as Hq0.
  pose proof (Z.mod_pos_bound (Length info) (PieceSize info) Hps) as Hm.
  pose proof (Z.div_mod (Length info) (PieceSize info) ltac:(lia)) as Hdm.
  assert (Length info / PieceSize info <= Length info) as Hq by nia.
  unfold GoInt.in_range, GoInt.MinInt, GoInt.MaxInt in HL.
  rewrite (wrap_id (Length info / PieceSize info))
    by (unfold GoInt.in_range, GoInt.MinInt, GoInt.MaxInt; lia).
  destruct (Z.eqb_spec (Length info mod PieceSize info) 0) as [Hz|Hnz]; cbn; [done|].
  unfold GoInt.add. rewrite wrap_id; [done|].
  unfold GoInt.in_range, GoInt.MinInt, GoInt.MaxInt. nia.
Qed.

(** C1, as amended: for every Info with PieceSize > 0 and Length >= 0,
    [CalculateLastPieceSize] returns [(lastPieceSize, numberOfPieces)] with
    [numberOfPieces = ceil(Length / PieceSize)] and
    [lastPieceSize = Length mod PieceSize], or the full [PieceSize] when that
    remainder is zero. *)
Theorem CalculateLastPieceSize_spec info :
  Info_ints_ok info -> 0 < PieceSize info -> 0 <= Length info ->
  CalculateLastPieceSize info =
    Ok (spec_last_piece_size (Length info) (PieceSize info),
        ceil_div (Length info) (PieceSize info)).
Proof.
  intros Hok Hps Hlen. rewrite CalculateLastPieceSize_nonneg by done.
  unfold spec_last_piece_size.
  destruct (Z.eqb_spec (Length info mod PieceSize info) 0) as [Hz|Hnz].
  - by rewrite ceil_div_exact.
  - by rewrite ceil_div_inexact.
Qed.

Lemma CalculateLastPieceSize_spec_witness :
  CalculateLastPieceSize (mkInfo "" [] 4 10 "" [] [] [] chunkSize) =
    Ok (spec_last_piece_size 10 4, ceil_div 10 4).
Proof.
  apply (CalculateLastPieceSize_spec (mkInfo "" [] 4 10 "" [] [] [] chunkSize)).
  - unfold Info_ints_ok, GoInt.in_range, GoInt.MinInt, GoInt.MaxInt. simpl. lia.
  - simpl. lia.
  - simpl. lia.
Defined.

(** C1 as stated fails for a negative [Length]: with [Length = -5] and
    [PieceSize = 3] the truncated quotient is [-1] and the remainder [-2], so
    the piece count comes out as [0] while [ceil(-5/3)] is [-1]. *)
Lemma CalculateLastPieceSize_negative_length :
  Info_ints_ok negative_length /\
  0 < PieceSize negative_length /\
  CalculateLastPieceSize negative_length = Ok (-2, 0) /\
  ceil_div (Length negative_length) (PieceSize negative_length) = -1 /\
  CalculateLastPieceSize negative_length <>
    Ok (spec_last_piece_size (Length negative_length) (PieceSize negative_length),
        ceil_div (Length negative_length) (PieceSize negative_length)).
Proof.
  repeat split; try done.
Qed.

(** Such an Info is what [Decode] returns on a torrent file that announces
    the length [-5]: neither integer is validated. *)
Example Decode_negative_length :
  @Decode Reference.bencode Reference.negative_length_torrent = Ok negative_length.
Proof. vm_compute. reflexivity. Qed.

(** The exact domain of [CalculateLastPieceSize]: it panics on a zero piece
    size and returns on every other one, negative ones included. *)
Lemma CalculateLastPieceSize_panics_iff info :
  CalculateLastPieceSize info = Panic DivideByZero <-> PieceSize info = 0.
Proof.
  unfold CalculateLastPieceSize, GoInt.rem, GoInt.div.
  destruct (Z.eqb_spec (PieceSize info) 0) as [Hz|Hnz]; cbn; [done|].
  split; [|done]. by destruct (negb _).
Qed.

Lemma CalculateLastPieceSize_returns info :
  PieceSize info <> 0 -> exists r, CalculateLastPieceSize info = Ok r.
Proof.
  intros Hnz. unfold CalculateLastPieceSize, GoInt.rem, GoInt.div.
  destruct (Z.eqb_spec (PieceSize info) 0) as [?|_]; [done|]. cbn.
  destruct (negb _); eauto.
Qed.

Example calc_negative_piece_size :
  CalculateLastPieceSize (mkInfo "" [] (-1) 5 "" [] [] [] chunkSize) = Ok (-1, -5).
Proof. reflexivity. Qed.

(** ** [crypto/sha1] *)

Example sha1_empty :
  map Z_of_byte (SHA1.sum []) =
  [0xda; 0x39; 0xa3; 0xee; 0x5e; 0x6b; 0x4b; 0x0d; 0x32; 0x55;
   0xbf; 0xef; 0x95; 0x60; 0x18; 0x90; 0xaf; 0xd8; 0x07; 0x09].
Proof. vm_compute. reflexivity. Qed.

Example sha1_abc :
  map Z_of_byte (SHA1.sum (list_byte_of_string "abc")) =
  [0xa9; 0x99; 0x3e; 0x36; 0x47; 0x06; 0x81; 0x6a; 0xba; 0x3e;
   0x25; 0x71; 0x78; 0x50; 0xc2; 0x6c; 0x9c; 0xd0; 0xd8; 0x9d].
Proof. vm_compute. reflexivity. Qed.

(** A message of 56 bytes: the padding spills into a second block. *)
Example sha1_two_blocks :
  map Z_of_byte (SHA1.sum (list_byte_of_string
    "abcdbcdecdefdefgefghfghighijhijkijkljklmklmnlmnomnopnopq")) =
  [0x84; 0x98; 0x3e; 0x44; 0x1c; 0x3b; 0xd2; 0x6e; 0xba; 0xae;
   0x4a; 0xa1; 0xf9; 0x51; 0x29; 0xe5; 0xe5; 0x46; 0x70; 0xf1].
Proof. vm_compute. reflexivity. Qed.

Lemma sha1_sum_length msg : List.length (SHA1.sum msg) = 20%nat.
Proof.
  unfold SHA1.sum.
  destruct (SHA1.blocks _ _ _) as [[[[h0 h1] h2] h3] h4]. reflexivity.
Qed.

(** ** Strings as byte sequences *)

Lemma list_byte_of_string_substring s : forall n m,
  list_byte_of_string (substring n m s) = take m (drop n (list_byte_of_string s)).
Proof.
  unfold list_byte_of_string.
  induction s as [|c s IH]; intros [|n] [|m]; cbn; try done.
  f_equal. apply (IH 0%nat m).
Qed.

Lemma list_byte_of_string_length s :
  List.length (list_byte_of_string s) = String.length s.
Proof.
  unfold list_byte_of_string. rewrite length_map.
  induction s as [|c s IH]; cbn; [done|]. by rewrite IH.
Qed.

Lemma chunk20_length s j :
  (20 * j + 20 <= String.length s)%nat -> List.length (chunk20 s j) = 20%nat.
Proof.
  intros Hj. unfold chunk20.
  rewrite length_take, length_drop, list_byte_of_string_length. lia.
Qed.

(** ** [pieceHashes] *)

Lemma sub_20_exact n : 0 <= n <= GoInt.MaxInt -> GoInt.sub n 20 = n - 20.
Proof.
  intros Hn. unfold GoInt.sub. apply wrap_id.
  unfold GoInt.in_range, GoInt.MinInt, GoInt.MaxInt in *. lia.
Qed.

Lemma add_20_exact n : 0 <= n -> n + 20 <= GoInt.MaxInt -> GoInt.add n 20 = n + 20.
Proof.
  intros Hn Hm. unfold GoInt.add. apply wrap_id.
  unfold GoInt.in_range, GoInt.MinInt, GoInt.MaxInt in *. lia.
Qed.

(** The loop started at offset [20 * j] with enough fuel appends the
    remaining [d] windows, in order. *)
Lemma pieceHashes_loop_spec (s : string) (k : nat) :
  String.length s = (20 * k)%nat -> len s <= GoInt.MaxInt ->
  forall (d j fuel : nat) (acc : list (list byte)),
    (j + d = k)%nat -> (d < fuel)%nat ->
    pieceHashes_loop fuel s (len s) (20 * Z.of_nat j) acc =
      Ok (acc ++ map (chunk20 s) (seq j d)).
Proof.
  intros Hk Hmax.
  assert (len s = 20 * Z.of_nat k) as Hlen by (unfold len; lia).
  induction d as [|d IH]; intros j fuel acc Hjd Hfuel;
    (destruct fuel as [|fuel]; [lia|]); cbn [pieceHashes_loop];
    rewrite sub_20_exact by lia.
  - destruct (Z.leb_spec (20 * Z.of_nat j) (len s - 20)) as [Hle|_]; [lia|].
    cbn. by rewrite app_nil_r.
  - destruct (Z.leb_spec (20 * Z.of_nat j) (len s - 20)) as [Hle|?]; [|lia].
    rewrite add_20_exact by lia.
    unfold str_slice.
    destruct (Z.leb_spec 0 (20 * Z.of_nat j)); [|lia].
    destruct (Z.leb_spec (20 * Z.of_nat j) (20 * Z.of_nat j + 20)); [|lia].
    destruct (Z.leb_spec (20 * Z.of_nat j + 20) (len s)); [|lia].
    cbn [andb mbind outcome_bind].
    replace (20 * Z.of_nat j + 20) with (20 * Z.of_nat (S j)) by lia.
    rewrite IH by lia.
    rewrite list_byte_of_string_substring.
    replace (Z.to_nat (20 * Z.of_nat j)) with (20 * j)%nat by lia.
    replace (Z.to_nat (20 * Z.of_nat (S j) - 20 * Z.of_nat j)) with 20%nat by lia.
    cbn [seq map]. by rewrite <- app_assoc.
Qed.

(** C6: [pieceHashes s] is an error exactly when [len(s)] is not a multiple
    of 20; otherwise it returns [len(s)/20] digests of 20 bytes each, the
    [i]-th being bytes [20*i .. 20*i+20) of [s]. *)
Theorem pieceHashes_spec (s : string) :
  len s <= GoInt.MaxInt ->
  ((exists msg, pieceHashes s = Err msg) <-> len s mod 20 <> 0) /\
  (len s mod 20 = 0 ->
   exists hashes : list (list byte),
     pieceHashes s = Ok hashes /\
     Z.of_nat (List.length hashes) = len s / 20 /\
     Forall (fun h : list byte => List.length h = 20%nat) hashes /\
     forall i : nat, (i < List.length hashes)%nat ->
       hashes !! i = Some (take 20 (drop (20 * i) (list_byte_of_string s)))).
Proof.
  intros Hmax.
  assert (0 <= len s) as Hpos by (unfold len; lia).
  unfold pieceHashes, GoInt.rem. cbn [Z.eqb mbind outcome_bind].
  rewrite Z.rem_mod_nonneg by lia.
  destruct (Z.eqb_spec (len s mod 20) 0) as [Hz|Hnz]; cbn [negb].
  - set (k := Z.to_nat (len s / 20)).
    assert (String.length s = (20 * k)%nat) as Hk.
    { pose proof (Z.div_mod (len s) 20 ltac:(lia)) as Hdm.
      pose proof (Z.div_pos (len s) 20 Hpos ltac:(lia)).
      unfold k, len in *. lia. }
    rewrite (pieceHashes_loop_spec s k Hk Hmax k 0%nat) by lia.
    cbn [app]. split.
    + split; [intros [msg Hmsg]; discriminate | done].
    + intros _. exists (map (chunk20 s) (seq 0 k)).
      rewrite length_map, length_seq. repeat split.
      * unfold k. pose proof (Z.div_pos (len s) 20 Hpos ltac:(lia)). lia.
      * apply Forall_forall. intros h Hh.
        apply list_elem_of_fmap in Hh as [j [-> Hj]]. apply elem_of_seq in Hj.
        apply chunk20_length. lia.
      * intros i Hi. rewrite list_lookup_fmap, lookup_seq_lt by done. done.
  - split; [|done]. split; [done|]. intros _. eauto.
Qed.

Lemma pieceHashes_spec_witness :
  ((exists msg, pieceHashes "aaaaaaaaaaaaaaaaaaaabbbbbbbbbbbbbbbbbbbb" = Err msg) <->
   len "aaaaaaaaaaaaaaaaaaaabbbbbbbbbbbbbbbbbbbb" mod 20 <> 0) /\
  (len "aaaaaaaaaaaaaaaaaaaabbbbbbbbbbbbbbbbbbbb" mod 20 = 0 ->
   exists hashes : list (list byte),
     pieceHashes "aaaaaaaaaaaaaaaaaaaabbbbbbbbbbbbbbbbbbbb" = Ok hashes /\
     Z.of_nat (List.length hashes) = len "aaaaaaaaaaaaaaaaaaaabbbbbbbbbbbbbbbbbbbb" / 20 /\
     Forall (fun h : list byte => List.length h = 20%nat) hashes /\
     forall i : nat, (i < List.length hashes)%nat ->
       hashes !! i = Some (take 20 (drop (20 * i)
         (list_byte_of_string "aaaaaaaaaaaaaaaaaaaabbbbbbbbbbbbbbbbbbbb")))).
Proof.
  apply (pieceHashes_spec "aaaaaaaaaaaaaaaaaaaabbbbbbbbbbbbbbbbbbbb").
  vm_compute. discriminate.
Defined.

Example pieceHashes_40 :
  pieceHashes "aaaaaaaaaaaaaaaaaaaabbbbbbbbbbbbbbbbbbbb" =
    Ok [list_byte_of_string "aaaaaaaaaaaaaaaaaaaa";
        list_byte_of_string "bbbbbbbbbbbbbbbbbbbb"].
Proof. vm_compute. reflexivity. Qed.

Example pieceHashes_19 :
  pieceHashes "aaaaaaaaaaaaaaaaaaa" = Err "piece hash has to be 20 bytes long".
Proof. vm_compute. reflexivity. Qed.

Example pieceHashes_empty : pieceHashes "" = Ok [].
Proof. vm_compute. reflexivity. Qed.

(** ** [Decode] *)

Section DecoderProperties.
Context `{BencodeLib}.

Lemma intValue_nil_error dict key value b :
  intValue dict key = (value, b, None) -> get dict key = Some (bInt value).
Proof.
  unfold intValue, fromDict.
  destruct (get dict key) as [[z|s|l|d]|]; intros Heq; by simplify_eq.
Qed.

Lemma intValue_bInt dict key value :
  get dict key = Some (bInt value) -> intValue dict key = (value, true, None).
Proof. intros Hget. unfold intValue, fromDict. by rewrite Hget. Qed.

Lemma fromDict_Ok dict key v : fromDict dict key = Ok v <-> get dict key = Some v.
Proof.
  unfold fromDict. destruct (get dict key); split; intros Heq; by simplify_eq.
Qed.

(** What a successful [Decode] read, field by field. *)
Lemma Decode_Ok_inv str info :
  Decode str = Ok info ->
  exists dict infoDict pieces,
    Parse str = Ok (bDict dict) /\
    strValue dict "announce" = Ok (Announce info) /\
    announceList dict = Ok (AnnounceList info) /\
    get dict "info" = Some (bDict infoDict) /\
    get infoDict "piece length" = Some (bInt (PieceSize info)) /\
    fst (fst (intValue infoDict "length")) = Length info /\
    strValue infoDict "name" = Ok (Name info) /\
    files infoDict = Ok (files_ info) /\
    strValue infoDict "pieces" = Ok pieces /\
    pieceHashes pieces = Ok (PieceHashes info) /\
    InfoHash info = SHA1.sum (list_byte_of_string (ben_String (bDict infoDict))) /\
    ChunkSize info = chunkSize.
Proof.
  unfold Decode. intros HD.
  destruct (Parse str) as [[z|s|l|dict]| | |] eqn:HP; cbn in HD; try done.
  destruct (strValue dict "announce") as [announce| | |] eqn:Ha; cbn in HD; try done.
  destruct (announceList dict) as [al| | |] eqn:Hal; cbn in HD; try done.
  destruct (fromDict dict "info") as [[z|s|l|infoDict]| | |] eqn:Hinfo;
    cbn in HD; try done.
  destruct (intValue infoDict "piece length") as [[pieceLength b] [e|]] eqn:Hpl;
    try done.
  destruct (intValue infoDict "length") as [[length isSingleFile] err] eqn:Hlen.
  destruct (if isSingleFile then err else None) as [e|]; try done.
  destruct (strValue infoDict "name") as [name| | |] eqn:Hname; cbn in HD; try done.
  destruct (files infoDict) as [fs| | |] eqn:Hfiles; cbn in HD; try done.
  destruct (bool_decide (fs = []) && negb isSingleFile); try done.
  destruct (strValue infoDict "pieces") as [pieces| | |] eqn:Hpieces;
    cbn in HD; try done.
  destruct (pieceHashes pieces) as [hashes| | |] eqn:Hhashes; cbn in HD; try done.
  injection HD as <-. cbn.
  exists dict, infoDict, pieces.
  apply fromDict_Ok in Hinfo. apply intValue_nil_error in Hpl.
  repeat split; try done. by rewrite Hlen.
Qed.

(** C7: whenever [Decode] succeeds, [InfoHash] is the SHA-1 digest, 20 bytes
    long, of [infoDict.String()], the re-encoded form of the dictionary
    stored under the key [info]. *)
Theorem Decode_InfoHash str info :
  Decode str = Ok info ->
  exists dict infoDict,
    Parse str = Ok (bDict dict) /\
    get dict "info" = Some (bDict infoDict) /\
    InfoHash info = SHA1.sum (list_byte_of_string (ben_String (bDict infoDict))) /\
    List.length (InfoHash info) = 20%nat.
Proof.
  intros HD.
  destruct (Decode_Ok_inv str info HD)
    as (dict & infoDict & pieces & HP & _ & _ & Hinfo & _ & _ & _ & _ & _ & _ & Hhash & _).
  exists dict, infoDict. repeat split; try done.
  rewrite Hhash. apply sha1_sum_length.
Qed.

(** Conditions under which [Decode] succeeds; the integer stored under
    [piece length] is copied into the result without any check on it. *)
Lemma Decode_Ok str dict infoDict announce al pieceLength length isSingleFile err
    name fs pieces hashes :
  Parse str = Ok (bDict dict) ->
  strValue dict "announce" = Ok announce ->
  announceList dict = Ok al ->
  get dict "info" = Some (bDict infoDict) ->
  get infoDict "piece length" = Some (bInt pieceLength) ->
  intValue infoDict "length" = (length, isSingleFile, err) ->
  (isSingleFile = true -> err = None) ->
  strValue infoDict "name" = Ok name ->
  files infoDict = Ok fs ->
  (fs = [] -> isSingleFile = true) ->
  strValue infoDict "pieces" = Ok pieces ->
  pieceHashes pieces = Ok hashes ->
  Decode str =
    Ok (mkInfo announce al pieceLength length name fs hashes
          (SHA1.sum (list_byte_of_string (ben_String (bDict infoDict)))) chunkSize).
Proof.
  intros HP Ha Hal Hinfo Hpl Hlen Herr Hname Hfiles Hfs Hpieces Hhashes.
  unfold Decode. rewrite HP. cbn. rewrite Ha. cbn. rewrite Hal. cbn.
  apply fromDict_Ok in Hinfo. rewrite Hinfo. cbn.
  rewrite (intValue_bInt _ _ _ Hpl), Hlen.
  replace (if isSingleFile then err else None) with (@None string)
    by (destruct isSingleFile; [by rewrite Herr|done]).
  rewrite Hname. cbn. rewrite Hfiles. cbn.
  replace (bool_decide (fs = []) && negb isSingleFile) with false.
  2:{ case_bool_decide as Hnil; [|done]. by rewrite (Hfs Hnil). }
  rewrite Hpieces. cbn. by rewrite Hhashes.
Qed.

(** C10, as amended: [CalculateLastPieceSize] returns exactly when
    [PieceSize <> 0], in particular whenever [PieceSize > 0], and panics with
    a division by zero exactly when [PieceSize = 0]; [Decode] copies the
    decoded piece length unchecked, so a torrent file whose piece length is
    zero decodes to an Info on which the operations panic. *)
Theorem CalculateLastPieceSize_zero_piece_size :
  (forall info, (exists r, CalculateLastPieceSize info = Ok r) <-> PieceSize info <> 0) /\
  (forall info, CalculateLastPieceSize info = Panic DivideByZero <->
     PieceSize info = 0) /\
  (forall info, 0 < PieceSize info -> exists r, CalculateLastPieceSize info = Ok r) /\
  (forall str info, Decode str = Ok info ->
     exists dict infoDict,
       Parse str = Ok (bDict dict) /\
       get dict "info" = Some (bDict infoDict) /\
       get infoDict "piece length" = Some (bInt (PieceSize info))) /\
  (forall str dict infoDict announce length name pieces hashes,
     Parse str = Ok (bDict dict) ->
     strValue dict "announce" = Ok announce ->
     get dict "announce-list" = None ->
     get dict "info" = Some (bDict infoDict) ->
     get infoDict "piece length" = Some (bInt 0) ->
     get infoDict "length" = Some (bInt length) ->
     strValue infoDict "name" = Ok name ->
     get infoDict "files" = None ->
     strValue infoDict "pieces" = Ok pieces ->
     pieceHashes pieces = Ok hashes ->
     exists info,
       Decode str = Ok info /\ PieceSize info = 0 /\
       CalculateLastPieceSize info = Panic DivideByZero).
Proof.
  split_and!.
  - intros info. split; [|apply CalculateLastPieceSize_returns].
    intros [r Hr] Hz. apply CalculateLastPieceSize_panics_iff in Hz. congruence.
  - intros info. apply CalculateLastPieceSize_panics_iff.
  - intros info Hps. apply CalculateLastPieceSize_returns. lia.
  - intros str info HD.
    destruct (Decode_Ok_inv str info HD)
      as (dict & infoDict & pieces & HP & _ & _ & Hinfo & Hpl & _).
    by exists dict, infoDict.
  - intros str dict infoDict announce length name pieces hashes
      HP Ha Hal Hinfo Hpl Hlen Hname Hfiles Hpieces Hhashes.
    eexists. split; [|split].
    + eapply (Decode_Ok str dict infoDict announce [] 0 length true None name []);
        try done.
      * unfold announceList, fromDict. by rewrite Hal.
      * by apply intValue_bInt.
      * unfold files, fromDict. by rewrite Hfiles.
    + done.
    + by apply CalculateLastPieceSize_panics_iff.
Qed.

End DecoderProperties.

Example Decode_sample :
  @Decode Reference.bencode Reference.sample_torrent = Ok Reference.sample_info.
Proof. vm_compute. reflexivity. Qed.

Lemma Decode_InfoHash_witness :
  exists dict infoDict,
    @Parse Reference.bencode Reference.sample_torrent = Ok (bDict dict) /\
    @get Reference.bencode dict "info" = Some (bDict infoDict) /\
    InfoHash Reference.sample_info =
      SHA1.sum (list_byte_of_string (@ben_String Reference.bencode (bDict infoDict))) /\
    List.length (InfoHash Reference.sample_info) = 20%nat.
Proof.
  apply (@Decode_InfoHash Reference.bencode Reference.sample_torrent
           Reference.sample_info).
  vm_compute. reflexivity.
Defined.

(** C10 as stated fails for a negative [PieceSize]: with [PieceSize = -1]
    and [Length = 5] nothing divides by zero and the call returns [(-1, -5)],
    although the precondition [PieceSize > 0] does not hold. *)
Lemma CalculateLastPieceSize_negative_piece_size :
  CalculateLastPieceSize negative_piece_size = Ok (-1, -5) /\
  PieceSize negative_piece_size = -1 /\
  ~ 0 < PieceSize negative_piece_size.
Proof. split_and!; [reflexivity | reflexivity | simpl; lia]. Qed.

(** Such an Info is what [Decode] returns on a torrent file whose piece
    length is [-1]. *)
Example Decode_negative_piece_size :
  @Decode Reference.bencode Reference.negative_piece_torrent = Ok negative_piece_size.
Proof. vm_compute. reflexivity. Qed.

Lemma CalculateLastPieceSize_zero_piece_size_witness :
  exists info,
    @Decode Reference.bencode Reference.zero_piece_torrent = Ok info /\
    PieceSize info = 0 /\
    CalculateLastPieceSize info = Panic DivideByZero.
Proof.
  destruct (@CalculateLastPieceSize_zero_piece_size Reference.bencode)
    as (_ & _ & _ & _ & Hzero).
  apply (Hzero Reference.zero_piece_torrent Reference.zero_piece_dict
           Reference.zero_piece_info_dict "http://t/a" 40 "f"
           Reference.sample_pieces Reference.sample_hashes);
    vm_compute; reflexivity.
Defined.

(** ** The tracker request *)

Section TrackerProperties.
Context `{UrlLib}.

Lemma Values_Add_fresh key value (v : gmap string (list string)) :
  v !! key = None -> Values_Add key value v !! key = Some [value].
Proof. intros Hk. unfold Values_Add. by rewrite lookup_insert_eq, Hk. Qed.

Lemma Values_Add_other key key' value (v : gmap string (list string)) :
  key <> key' -> Values_Add key value v !! key' = v !! key'.
Proof. intros Hne. unfold Values_Add. by rewrite lookup_insert_ne. Qed.

(** C3: the query of the tracker URL carries the fixed string [lol] under
    [info_hash], whatever the torrent's info hash is, while [peer_id] and
    [port] carry the configuration's values and [uploaded], [downloaded] and
    [left] the state's. *)
Theorem prepareURL_info_hash_placeholder initState conf info :
  exists params : gmap string (list string),
    params !! "info_hash" = Some ["lol"] /\
    params !! "peer_id" = Some [PeerID conf] /\
    params !! "port" = Some [Itoa (Port conf)] /\
    params !! "uploaded" = Some [Itoa (Uploaded initState)] /\
    params !! "downloaded" = Some [Itoa (Downloaded initState)] /\
    params !! "left" = Some [Itoa (Left initState)] /\
    prepareURL initState (PeerID conf) (Port conf) info =
      match url_Parse (Announce info) with
      | Ok baseURL => Ok (URL_String (set_RawQuery (Values_Encode params) baseURL))
      | Err err => Err ("Malformed URL: " ++ err)
      | Panic p => Panic p
      | OutOfFuel => OutOfFuel
      end /\
    NewTracker info initState conf =
      (url ← prepareURL initState (PeerID conf) (Port conf) info;
       Ok (mkHttpTracker url)) /\
    forall hash : list byte,
      prepareURL initState (PeerID conf) (Port conf) (set_InfoHash hash info) =
      prepareURL initState (PeerID conf) (Port conf) info.
Proof.
  exists
    (Values_Add "left" (Itoa (Left initState))
    (Values_Add "downloaded" (Itoa (Downloaded initState))
    (Values_Add "uploaded" (Itoa (Uploaded initState))
    (Values_Add "event" "started"
    (Values_Add "compact" "1"
    (Values_Add "port" (Itoa (Port conf))
    (Values_Add "peer_id" (PeerID conf)
    (Values_Add "info_hash" "lol" ∅)))))))).
  split_and!; [..|reflexivity|reflexivity|done];
    repeat first [ rewrite Values_Add_fresh; [reflexivity|]
                 | rewrite Values_Add_other by done
                 | apply lookup_empty ].
Qed.

End TrackerProperties.

(** ** The peer session *)

Section PeerProperties.
Context `{PacketCodec}.

Lemma receive_cons pkt pkts p :
  receive (pkt :: pkts) p = receive pkts (NewPacket pkt p).
Proof. reflexivity. Qed.

(** What one inbound packet does to the transport log: nothing, or one more
    entry stamped with the flag the handler left. *)
Lemma NewPacket_net pkt p :
  net (NewPacket pkt p) = net p \/
  (ID pkt = PacketID.unchoke /\
   net (NewPacket pkt p) =
     net p ++ [mkTransmission (encodePieceRequest 0 0 16384) false]) \/
  (exists flag, net (NewPacket pkt p) = net p ++ [mkTransmission encodeInterested flag]).
Proof.
  unfold NewPacket. destruct (ID pkt) eqn:Hid; cbn; eauto.
  - destruct (decodeRequest (Payload pkt)) as [[piece offset] size]. by left.
  - destruct (decodePiece (Payload pkt)) as [[piece offset] payload]. by left.
Qed.

Lemma NewPacket_request_unchoked pkt p :
  Forall request_unchoked (net p) -> Forall request_unchoked (net (NewPacket pkt p)).
Proof.
  intros Hinv.
  destruct (NewPacket_net pkt p) as [-> | [[_ ->] | [flag ->]]]; [done|..];
    apply Forall_app; (split; [done|]); apply Forall_singleton.
  - by intros _.
  - intros Hreq. discriminate Hreq.
Qed.

(** The stamp [send] writes is the flag of the session it is called on. *)
Lemma send_net pkt p :
  net (send pkt p) = net p ++ [mkTransmission pkt (chocked p)].
Proof. reflexivity. Qed.

(** A packet whose handling put a Request on the transport leaves the
    session unchoked. *)
Lemma NewPacket_request_leaves_unchoked pkt p tr :
  net (NewPacket pkt p) = net p ++ [tr] ->
  ID (packet tr) = PacketID.request ->
  chocked (NewPacket pkt p) = false /\ chocked_at_send tr = false.
Proof.
  intros Hnet Hreq.
  destruct (NewPacket_net pkt p) as [Hsame | [[Hid Happ] | [flag Happ]]].
  - rewrite Hsame in Hnet. apply (f_equal List.length) in Hnet.
    rewrite length_app in Hnet. cbn in Hnet. lia.
  - rewrite Happ in Hnet. apply app_inv_head in Hnet. injection Hnet as <-.
    split; [|done]. unfold NewPacket. by rewrite Hid.
  - rewrite Happ in Hnet. apply app_inv_head in Hnet. injection Hnet as <-.
    discriminate Hreq.
Qed.

(** C2: an Unchoke message makes the session send the request for piece 0,
    offset 0, length 16384, whatever its state. *)
Theorem onUnchoke_requests_first_block (payload : list byte) (p : simplePeer) :
  NewPacket (mkPacket PacketID.unchoke payload) p = onUnchoke p /\
  net (onUnchoke p) =
    net p ++ [mkTransmission (encodePieceRequest 0 0 16384) false] /\
  encodePieceRequest 0 0 16384 =
    mkPacket PacketID.request
      [x00; x00; x00; x00;  x00; x00; x00; x00;  x00; x00; x40; x00].
Proof. by split_and!. Qed.

(** C5: along every sequence of inbound packets, each Request handed to the
    transport went out with the [chocked] flag clear; Choke sets the flag,
    and Unchoke clears it before it requests. *)
Theorem requests_never_while_choked (pkts : list Packet) (p : simplePeer) :
  Forall request_unchoked (net p) ->
  Forall request_unchoked (net (receive pkts p)) /\
  (forall payload, chocked (NewPacket (mkPacket PacketID.choke payload) p) = true) /\
  (forall payload,
     NewPacket (mkPacket PacketID.unchoke payload) p =
       send (encodePieceRequest 0 0 16384) (set_chocked false p)).
Proof.
  intros Hinv. split_and!; [|done..].
  revert p Hinv. induction pkts as [|pkt pkts IH]; intros p Hinv; [done|].
  rewrite receive_cons. apply IH. by apply NewPacket_request_unchoked.
Qed.

(** C8: Choke and Unchoke set and clear [chocked], Interested and
    NotInterested set and clear [interested]; every other field of the
    session keeps its value, and only Unchoke writes to the transport. *)
Theorem flag_handlers (payload : list byte) (p : simplePeer) :
  NewPacket (mkPacket PacketID.choke payload) p =
    mkPeer (msgs p) (net p) true (bitfield p) (interested p) /\
  NewPacket (mkPacket PacketID.unchoke payload) p =
    mkPeer (msgs p) (net p ++ [mkTransmission (encodePieceRequest 0 0 16384) false])
           false (bitfield p) (interested p) /\
  NewPacket (mkPacket PacketID.interested payload) p =
    mkPeer (msgs p) (net p) (chocked p) (bitfield p) true /\
  NewPacket (mkPacket PacketID.notInterested payload) p =
    mkPeer (msgs p) (net p) (chocked p) (bitfield p) false.
Proof. by split_and!. Qed.

(** C9: a Have message makes the session send Interested and changes no
    field of its state: the bitfield stays as it was and the payload is not
    looked at. *)
Theorem onHave_leaves_state (payload : list byte) (p : simplePeer) :
  NewPacket (mkPacket PacketID.have payload) p = onHave payload p /\
  onHave payload p =
    mkPeer (msgs p) (net p ++ [mkTransmission encodeInterested (chocked p)])
           (chocked p) (bitfield p) (interested p) /\
  bitfield (onHave payload p) = bitfield p /\
  encodeInterested = mkPacket PacketID.interested [].
Proof. by split_and!. Qed.

End PeerProperties.

Lemma requests_never_while_choked_witness :
  Forall request_unchoked
    (net (@receive Reference.codec Reference.conversation newPeer)) /\
  (forall payload,
     chocked (@NewPacket Reference.codec (mkPacket PacketID.choke payload) newPeer) = true) /\
  (forall payload,
     @NewPacket Reference.codec (mkPacket PacketID.unchoke payload) newPeer =
       send (encodePieceRequest 0 0 16384) (set_chocked false newPeer)).
Proof.
  apply (@requests_never_while_choked Reference.codec Reference.conversation newPeer).
  simpl. apply Forall_nil_2.
Defined.

Example receive_conversation :
  map (fun tr => (ID (packet tr), chocked_at_send tr))
      (net (@receive Reference.codec Reference.conversation newPeer)) =
  [(PacketID.request, false); (PacketID.interested, false);
   (PacketID.interested, true); (PacketID.request, false)].
Proof. reflexivity. Qed.

(** ** [main] *)

Section MainProperties.
Context `{BencodeLib} `{UrlLib} `{HttpLib} `{Process}.

(** C4, on the code: with a readable torrent file, a tracker URL that
    parses and a tracker answer that decodes to an empty peer list, [main]
    indexes [peers[0]] and the process dies of an index-out-of-range panic;
    nothing is reported to the caller. *)
Theorem main_empty_peer_list_panics data info t :
  ReadFile (TorrentPath NewConf) = Ok data ->
  Decode data = Ok info ->
  NewTracker info NewInitState NewConf = Ok t ->
  Peers t = Ok [] ->
  main = Crashed IndexOutOfRange.
Proof.
  intros Hread Hdecode Htracker Hpeers. unfold main.
  by rewrite Hread, Hdecode, Htracker, Hpeers.
Qed.

(** The failures [main] does report: each prints the error and returns. *)
Lemma main_tracker_error data info t err :
  ReadFile (TorrentPath NewConf) = Ok data ->
  Decode data = Ok info ->
  NewTracker info NewInitState NewConf = Ok t ->
  Peers t = Err err ->
  main = Printed err.
Proof.
  intros Hread Hdecode Htracker Hpeers. unfold main.
  by rewrite Hread, Hdecode, Htracker, Hpeers.
Qed.

Lemma main_first_peer data info t peer peers :
  ReadFile (TorrentPath NewConf) = Ok data ->
  Decode data = Ok info ->
  NewTracker info NewInitState NewConf = Ok t ->
  Peers t = Ok (peer :: peers) ->
  main = SentTo peer.
Proof.
  intros Hread Hdecode Htracker Hpeers. unfold main.
  by rewrite Hread, Hdecode, Htracker, Hpeers.
Qed.

End MainProperties.

Lemma main_empty_peer_list_panics_witness :
  @main Reference.bencode Reference.urls (Reference.http Reference.no_peers)
        (Reference.process (Ok Reference.sample_torrent))
  = Crashed IndexOutOfRange.
Proof.
  apply (@main_empty_peer_list_panics
           Reference.bencode Reference.urls (Reference.http Reference.no_peers)
           (Reference.process (Ok Reference.sample_torrent))
           Reference.sample_torrent Reference.sample_info
           (mkHttpTracker "http://t/a?compact=1&downloaded=0&event=started&info_hash=lol&left=0&peer_id=-GX0001-000000000000&port=6881&uploaded=0"));
    vm_compute; reflexivity.
Defined.

Example main_one_peer :
  @main Reference.bencode Reference.urls (Reference.http Reference.one_peer)
        (Reference.process (Ok Reference.sample_torrent))
  = SentTo ("1.2.3.4", 6881).
Proof. vm_compute. reflexivity. Qed.

Example main_unreadable_file :
  @main Reference.bencode Reference.urls (Reference.http Reference.one_peer)
        (Reference.process (Err "open file.torrent: no such file or directory"))
  = Printed "File reading error open file.torrent: no such file or directory".
Proof. vm_compute. reflexivity. Qed.

(** * Part III: further properties *)

(** ** [CalculateLastPieceSize] *)

(** X1: [CalculateLastPieceSize] panics exactly on a zero piece size; on
    every other one, negative ones included, it returns a pair. *)
Theorem CalculateLastPieceSize_domain info :
  (CalculateLastPieceSize info = Panic DivideByZero <-> PieceSize info = 0) /\
  ((exists r, CalculateLastPieceSize info = Ok r) <-> PieceSize info <> 0).
Proof.
  split; [apply CalculateLastPieceSize_panics_iff|]. split.
  - intros [r Hr] Hz. apply CalculateLastPieceSize_panics_iff in Hz. congruence.
  - apply CalculateLastPieceSize_returns.
Qed.

(** X2: with a positive piece size the two results account for the whole
    length, whatever its sign: all pieces but the last are full ones. *)
Theorem CalculateLastPieceSize_reassembles info :
  Info_ints_ok info -> 0 < PieceSize info ->
  exists lastPieceSize numberOfPieces,
    CalculateLastPieceSize info = Ok (lastPieceSize, numberOfPieces) /\
    (numberOfPieces - 1) * PieceSize info + lastPieceSize = Length info.
Proof.
  intros Hok Hps. rewrite CalculateLastPieceSize_truncated by done.
  pose proof (Z.quot_rem' (Length info) (PieceSize info)) as Hqr.
  destruct (Z.eqb_spec (Z.rem (Length info) (PieceSize info)) 0) as [Hz|Hnz];
    eexists _, _; (split; [reflexivity|]); lia.
Qed.

Lemma CalculateLastPieceSize_reassembles_witness :
  exists lastPieceSize numberOfPieces,
    CalculateLastPieceSize Reference.sample_info = Ok (lastPieceSize, numberOfPieces) /\
    (numberOfPieces - 1) * PieceSize Reference.sample_info + lastPieceSize =
      Length Reference.sample_info.
Proof.
  apply (CalculateLastPieceSize_reassembles Reference.sample_info).
  - unfold Info_ints_ok, GoInt.in_range, GoInt.MinInt, GoInt.MaxInt. simpl. lia.
  - simpl. lia.
Defined.

(** X3: with a positive piece size and a non-negative length, the last
    piece size lies in [1 .. PieceSize] and the piece count is non-negative,
    zero exactly for an empty torrent. *)
Theorem CalculateLastPieceSize_bounds info :
  Info_ints_ok info -> 0 < PieceSize info -> 0 <= Length info ->
  exists lastPieceSize numberOfPieces,
    CalculateLastPieceSize info = Ok (lastPieceSize, numberOfPieces) /\
    1 <= lastPieceSize <= PieceSize info /\
    0 <= numberOfPieces /\
    (numberOfPieces = 0 <-> Length info = 0).
Proof.
  intros Hok Hps Hlen. rewrite CalculateLastPieceSize_nonneg by done.
  pose proof (Z.mod_pos_bound (Length info) (PieceSize info) Hps) as Hm.
  pose proof (Z.div_pos (Length info) (PieceSize info) Hlen Hps) as Hq.
  pose proof (Z.div_mod (Length info) (PieceSize info) ltac:(lia)) as Hdm.
  destruct (Z.eqb_spec (Length info mod PieceSize info) 0) as [Hz|Hnz];
    eexists _, _; (split; [reflexivity|]); split_and!; try lia; nia.
Qed.

Lemma CalculateLastPieceSize_bounds_witness :
  exists lastPieceSize numberOfPieces,
    CalculateLastPieceSize Reference.sample_info = Ok (lastPieceSize, numberOfPieces) /\
    1 <= lastPieceSize <= PieceSize Reference.sample_info /\
    0 <= numberOfPieces /\
    (numberOfPieces = 0 <-> Length Reference.sample_info = 0).
Proof.
  apply (CalculateLastPieceSize_bounds Reference.sample_info).
  - unfold Info_ints_ok, GoInt.in_range, GoInt.MinInt, GoInt.MaxInt. simpl. lia.
  - simpl. lia.
  - simpl. lia.
Defined.

(** ** [pieceHashes] *)

Lemma substring_length n m s :
  (n + m <= String.length s)%nat -> String.length (substring n m s) = m.
Proof.
  intros Hnm. rewrite <- list_byte_of_string_length, list_byte_of_string_substring.
  rewrite length_take, length_drop, list_byte_of_string_length. lia.
Qed.

(** An index advanced by 20 that still compares above the old one did not
    wrap around. *)
Lemma add_20_no_wrap i : 0 <= i -> i <= GoInt.add i 20 -> GoInt.add i 20 = i + 20.
Proof.
  intros Hi. unfold GoInt.add, GoInt.wrap. intros Hle.
  destruct (Z_lt_le_dec (i + 20 + 2 ^ 63) (2 ^ 64)) as [Hsmall|Hbig].
  - rewrite Z.mod_small by lia. lia.
  - pose proof (Z.mod_pos_bound (i + 20 + 2 ^ 63) (2 ^ 64) ltac:(lia)) as Hm.
    assert (i + 20 + 2 ^ 63 < 2 * 2 ^ 64) as Hlt by lia.
    replace (i + 20 + 2 ^ 63) with (i + 20 + 2 ^ 63 - 2 ^ 64 + 1 * 2 ^ 64) in Hle by lia.
    rewrite Z.mod_add in Hle by lia. rewrite Z.mod_small in Hle by lia. lia.
Qed.

Lemma str_slice_20_length s i hash :
  str_slice s i (GoInt.add i 20) = Ok hash -> String.length hash = 20%nat.
Proof.
  unfold str_slice.
  destruct (Z.leb_spec 0 i) as [Hi|]; [|done].
  destruct (Z.leb_spec i (GoInt.add i 20)) as [Hij|]; [|done].
  destruct (Z.leb_spec (GoInt.add i 20) (len s)) as [Hj|]; [|done].
  cbn. intros [= <-]. rewrite add_20_no_wrap in * by done.
  unfold len in Hj. rewrite substring_length by lia. lia.
Qed.

(** Whatever the loop returns holds only 20-byte digests, wrap-around or
    not: a slice of another width panics instead. *)
Lemma pieceHashes_loop_lengths s l : forall fuel i acc hashes,
  Forall (fun h : list byte => List.length h = 20%nat) acc ->
  pieceHashes_loop fuel s l i acc = Ok hashes ->
  Forall (fun h : list byte => List.length h = 20%nat) hashes.
Proof.
  induction fuel as [|fuel IH]; intros i acc hashes Hacc; cbn [pieceHashes_loop];
    [done|].
  destruct (i <=? GoInt.sub l 20); [|by intros [= <-]].
  destruct (str_slice s i (GoInt.add i 20)) as [hash| | |] eqn:Hslice; cbn; try done.
  apply IH. apply Forall_app. split; [done|]. apply Forall_singleton.
  rewrite list_byte_of_string_length. by eapply str_slice_20_length.
Qed.

Lemma pieceHashes_lengths pieces hashes :
  pieceHashes pieces = Ok hashes ->
  Forall (fun h : list byte => List.length h = 20%nat) hashes.
Proof.
  unfold pieceHashes, GoInt.rem. cbn [Z.eqb mbind outcome_bind].
  destruct (negb _); [done|]. by apply pieceHashes_loop_lengths.
Qed.

Lemma concat_chunk20 s : forall k : nat,
  concat (map (chunk20 s) (seq 0 k)) = take (20 * k) (list_byte_of_string s).
Proof.
  induction k as [|k IH]; [by rewrite Nat.mul_0_r|].
  rewrite seq_S, map_app, concat_app, IH. cbn [map concat Nat.add].
  rewrite app_nil_r. unfold chunk20. rewrite take_take_drop. f_equal. lia.
Qed.

(** X4: cutting a string into piece hashes loses nothing: whenever
    [pieceHashes] succeeds, the digests laid end to end are the bytes of the
    string. *)
Theorem pieceHashes_concat (s : string) (hashes : list (list byte)) :
  len s <= GoInt.MaxInt ->
  pieceHashes s = Ok hashes ->
  concat hashes = list_byte_of_string s.
Proof.
  intros Hmax.
  assert (0 <= len s) as Hpos by (unfold len; lia).
  unfold pieceHashes, GoInt.rem. cbn [Z.eqb mbind outcome_bind].
  rewrite Z.rem_mod_nonneg by lia.
  destruct (Z.eqb_spec (len s mod 20) 0) as [Hz|Hnz]; cbn [negb]; [|done].
  set (k := Z.to_nat (len s / 20)).
  assert (String.length s = (20 * k)%nat) as Hk.
  { pose proof (Z.div_mod (len s) 20 ltac:(lia)) as Hdm.
    pose proof (Z.div_pos (len s) 20 Hpos ltac:(lia)).
    unfold k, len in *. lia. }
  rewrite (pieceHashes_loop_spec s k Hk Hmax k 0%nat) by lia.
  cbn [app]. intros [= <-]. rewrite concat_chunk20.
  apply take_ge. rewrite list_byte_of_string_length. lia.
Qed.

Lemma pieceHashes_concat_witness :
  concat Reference.sample_hashes = list_byte_of_string Reference.sample_pieces.
Proof.
  apply (pieceHashes_concat Reference.sample_pieces Reference.sample_hashes).
  - vm_compute. discriminate.
  - vm_compute. reflexivity.
Defined.

(** ** The helpers of [Decode] *)

Section DecoderFurther.
Context `{BencodeLib}.

Lemma strValue_Ok dict key s :
  strValue dict key = Ok s -> get dict key = Some (bStr s).
Proof.
  unfold strValue, fromDict.
  destruct (get dict key) as [[z|s'|l|d]|]; cbn; intros Heq; by simplify_eq.
Qed.

Lemma strValue_bStr dict key s :
  get dict key = Some (bStr s) -> strValue dict key = Ok s.
Proof. intros Hget. unfold strValue, fromDict. by rewrite Hget. Qed.

Lemma intValue_absent dict key value err :
  intValue dict key = (value, false, err) -> get dict key = None /\ value = 0.
Proof.
  unfold intValue, fromDict.
  destruct (get dict key) as [[z|s|l|d]|]; intros Heq; by simplify_eq.
Qed.

Lemma intValue_None dict key :
  get dict key = None ->
  intValue dict key = (0, false, Some (key ++ " is missing in the dictionary")%string).
Proof. intros Hget. unfold intValue, fromDict. by rewrite Hget. Qed.

Lemma announceList_loop_spec : forall values acc,
  announceList_loop values acc =
    match mapM tier_of values with
    | Some tiers => Ok (acc ++ tiers)
    | None => Err (wrongTypeError "announce-list entry" "list")
    end.
Proof.
  induction values as [|v values IH]; intros acc; cbn.
  - by rewrite app_nil_r.
  - destruct v as [z|s|l|d]; cbn; try done.
    rewrite IH. destruct (mapM tier_of values) as [tiers|]; cbn; [|done].
    by rewrite <- app_assoc.
Qed.

(** X5: [announceList] never panics. Without the key it returns the empty
    list and no error; on a list of lists it returns one tier per entry, in
    order, each item printed; a single entry that is not a list makes the
    whole call an error. *)
Theorem announceList_spec (bencs : bDictT) :
  announceList bencs =
    match get bencs "announce-list" with
    | None => Ok []
    | Some (bList values) =>
        match mapM tier_of values with
        | Some tiers => Ok tiers
        | None => Err (wrongTypeError "announce-list entry" "list")
        end
    | Some _ => Err (wrongTypeError "announce-list entry" "list of lists")
    end.
Proof.
  unfold announceList, fromDict.
  destruct (get bencs "announce-list") as [[z|s|values|d]|]; try done.
  by rewrite announceList_loop_spec.
Qed.

Lemma files_loop_step v f values acc :
  file_of v = Some f ->
  files_loop (v :: values) acc = files_loop values (acc ++ [f]).
Proof.
  unfold file_of. destruct v as [z|s|l|d]; try done.
  destruct (get d "length") as [[length|?|?|?]|] eqn:Hlen; try done.
  destruct (get d "path") as [[?|?|benPathList|?]|] eqn:Hpath; try done.
  intros [= <-]. cbn [files_loop].
  rewrite (intValue_bInt _ _ _ Hlen).
  apply fromDict_Ok in Hpath. by rewrite Hpath.
Qed.

Lemma files_loop_prefix : forall pre fs rest acc,
  mapM file_of pre = Some fs ->
  files_loop (pre ++ rest) acc = files_loop rest (acc ++ fs).
Proof.
  induction pre as [|v pre IH]; intros fs rest acc Hpre.
  - injection Hpre as <-. by rewrite app_nil_r.
  - apply mapM_Some in Hpre. inversion Hpre as [|? f ? fs' Hv Hrest]; subst.
    apply mapM_Some in Hrest. cbn [app].
    rewrite (files_loop_step _ _ _ _ Hv), (IH _ _ _ Hrest).
    by rewrite <- app_assoc.
Qed.

(** X6: on a [files] list whose entries all are dictionaries with an
    integer [length] and a list [path], [files] returns one [file] per entry,
    in order, with that length and the printed path items. *)
Theorem files_well_formed (infoDict : bDictT) values fs :
  get infoDict "files" = Some (bList values) ->
  mapM file_of values = Some fs ->
  files infoDict = Ok fs.
Proof.
  intros Hget Hall. unfold files, fromDict. rewrite Hget.
  rewrite <- (app_nil_r values), (files_loop_prefix _ _ _ _ Hall). done.
Qed.

(** X7: an entry of the [files] list that is not a dictionary makes
    [files] panic on its unchecked type assertion, whatever precedes and
    follows it. *)
Theorem files_panics_on_non_dict (infoDict : bDictT) pre v post fs :
  get infoDict "files" = Some (bList (pre ++ v :: post)) ->
  mapM file_of pre = Some fs ->
  is_bDict v = false ->
  files infoDict = Panic TypeAssertion.
Proof.
  intros Hget Hpre Hv. unfold files, fromDict. rewrite Hget.
  rewrite (files_loop_prefix _ _ _ _ Hpre). by destruct v.
Qed.


End DecoderFurther.

Lemma files_well_formed_witness :
  @files Reference.bencode Reference.multi_file_info_dict =
    Ok [mkFile 10 ["1:a"; "1:b"]; mkFile 30 ["1:c"]].
Proof.
  apply (@files_well_formed Reference.bencode Reference.multi_file_info_dict
           [bDict [("length", Reference.BInt 10);
                   ("path", Reference.BList [Reference.BStr "a"; Reference.BStr "b"])];
            bDict [("length", Reference.BInt 30);
                   ("path", Reference.BList [Reference.BStr "c"])]]);
    vm_compute; reflexivity.
Defined.

Lemma files_panics_on_non_dict_witness :
  @files Reference.bencode Reference.int_in_files_info_dict = Panic TypeAssertion.
Proof.
  apply (@files_panics_on_non_dict Reference.bencode Reference.int_in_files_info_dict
           [bDict [("length", Reference.BInt 10);
                   ("path", Reference.BList [Reference.BStr "a"])]]
           (bInt 7) [] [mkFile 10 ["1:a"]]);
    vm_compute; reflexivity.
Defined.


(** ** [Decode], further *)

Section DecodeFurther.
Context `{BencodeLib}.

(** A successful [Decode], with what it learnt about [length] and [files]. *)
Lemma Decode_Ok_length_inv str info :
  Decode str = Ok info ->
  exists dict infoDict isSingleFile err,
    Parse str = Ok (bDict dict) /\
    get dict "info" = Some (bDict infoDict) /\
    intValue infoDict "length" = (Length info, isSingleFile, err) /\
    (isSingleFile = true -> err = None) /\
    (files_ info = [] -> isSingleFile = true).
Proof.
  unfold Decode. intros HD.
  destruct (Parse str) as [[z|s|l|dict]| | |] eqn:HP; cbn in HD; try done.
  destruct (strValue dict "announce") as [announce| | |]; cbn in HD; try done.
  destruct (announceList dict) as [al| | |]; cbn in HD; try done.
  destruct (fromDict dict "info") as [[z|s|l|infoDict]| | |] eqn:Hinfo;
    cbn in HD; try done.
  destruct (intValue infoDict "piece length") as [[pieceLength b] [e|]]; try done.
  destruct (intValue infoDict "length") as [[length isSingleFile] err] eqn:Hlen.
  destruct (if isSingleFile then err else None) as [e|] eqn:Herr; try done.
  destruct (strValue infoDict "name") as [name| | |]; cbn in HD; try done.
  destruct (files infoDict) as [fs| | |]; cbn in HD; try done.
  destruct (bool_decide (fs = []) && negb isSingleFile) eqn:Hnil; try done.
  destruct (strValue infoDict "pieces") as [pieces| | |]; cbn in HD; try done.
  destruct (pieceHashes pieces) as [hashes| | |]; cbn in HD; try done.
  injection HD as <-. cbn.
  exists dict, infoDict, isSingleFile, err.
  apply fromDict_Ok in Hinfo. split_and!; try done.
  - intros ->. done.
  - intros ->. rewrite bool_decide_eq_true_2 in Hnil by done.
    by destruct isSingleFile.
Qed.

(** X9: a successful [Decode] found every mandatory key with its type:
    [announce] and [info] at the top, [piece length], [name] and [pieces] in
    the info dictionary, and copied their values into the Info. *)
Theorem Decode_mandatory_keys str info :
  Decode str = Ok info ->
  exists dict infoDict pieces,
    Parse str = Ok (bDict dict) /\
    get dict "announce" = Some (bStr (Announce info)) /\
    get dict "info" = Some (bDict infoDict) /\
    get infoDict "piece length" = Some (bInt (PieceSize info)) /\
    get infoDict "name" = Some (bStr (Name info)) /\
    get infoDict "pieces" = Some (bStr pieces) /\
    ChunkSize info = 16384.
Proof.
  intros HD.
  destruct (Decode_Ok_inv str info HD)
    as (dict & infoDict & pieces & HP & Ha & _ & Hinfo & Hpl & _ & Hname & _
        & Hpieces & _ & _ & Hchunk).
  exists dict, infoDict, pieces.
  split_and!; try done; by apply strValue_Ok.
Qed.

(** X10: a decoded torrent is of one of two kinds: single-file, where
    [Length] is the integer stored under [length]; or multi-file, where the
    key is absent, [Length] is left at 0 and there is at least one file. *)
Theorem Decode_single_or_multi_file str info :
  Decode str = Ok info ->
  exists dict infoDict,
    Parse str = Ok (bDict dict) /\
    get dict "info" = Some (bDict infoDict) /\
    (get infoDict "length" = Some (bInt (Length info)) \/
     (get infoDict "length" = None /\ Length info = 0 /\ files_ info <> [])).
Proof.
  intros HD.
  destruct (Decode_Ok_length_inv str info HD)
    as (dict & infoDict & isSingleFile & err & HP & Hinfo & Hlen & Herr & Hfiles).
  exists dict, infoDict. split_and!; try done.
  destruct isSingleFile.
  - left. rewrite Herr in Hlen by done. by eapply intValue_nil_error.
  - right. apply intValue_absent in Hlen as [Hnone Hzero].
    split_and!; try done. intros Hnil. by specialize (Hfiles Hnil).
Qed.

(** X11: for a decoded multi-file torrent (no [length] key) with a positive
    piece size, [CalculateLastPieceSize] reports zero pieces and a last piece
    of full size, whatever the lengths of the files are. *)
Theorem Decode_multi_file_zero_pieces str info dict infoDict :
  Decode str = Ok info ->
  Parse str = Ok (bDict dict) ->
  get dict "info" = Some (bDict infoDict) ->
  get infoDict "length" = None ->
  0 < PieceSize info ->
  CalculateLastPieceSize info = Ok (PieceSize info, 0).
Proof.
  intros HD HP Hinfo Hnone Hps.
  destruct (Decode_Ok_length_inv str info HD)
    as (dict' & infoDict' & isSingleFile & err & HP' & Hinfo' & Hlen & _).
  rewrite HP in HP'. injection HP' as <-.
  rewrite Hinfo in Hinfo'. injection Hinfo' as <-.
  rewrite (intValue_None _ _ Hnone) in Hlen. injection Hlen as Hzero _ _.
  unfold CalculateLastPieceSize, GoInt.rem, GoInt.div. rewrite <- Hzero.
  destruct (Z.eqb_spec (PieceSize info) 0) as [?|_]; [lia|]. cbn.
  rewrite Z.rem_0_l, Z.quot_0_l by lia. done.
Qed.

(** X12: every piece hash of a decoded torrent is 20 bytes long. *)
Theorem Decode_PieceHashes_20 str info :
  Decode str = Ok info ->
  Forall (fun h : list byte => List.length h = 20%nat) (PieceHashes info).
Proof.
  intros HD.
  destruct (Decode_Ok_inv str info HD)
    as (dict & infoDict & pieces & _ & _ & _ & _ & _ & _ & _ & _ & _ & Hhashes & _).
  by eapply pieceHashes_lengths.
Qed.

(** X13: a torrent that is well-formed up to its name (a dictionary with a
    string [announce], an [announce-list] that reads, an [info] dictionary
    with an integer [piece length] and a string [name]) but has no [length]
    key and for which [files] returns nil is refused with the error
    [No files to download in the torrent file]. *)
Theorem Decode_no_files str dict infoDict announce al pieceLength name :
  Parse str = Ok (bDict dict) ->
  strValue dict "announce" = Ok announce ->
  announceList dict = Ok al ->
  get dict "info" = Some (bDict infoDict) ->
  get infoDict "piece length" = Some (bInt pieceLength) ->
  get infoDict "length" = None ->
  strValue infoDict "name" = Ok name ->
  files infoDict = Ok [] ->
  Decode str = Err "No files to download in the torrent file".
Proof.
  intros HP Ha Hal Hinfo Hpl Hlen Hname Hfiles.
  unfold Decode. rewrite HP. cbn. rewrite Ha. cbn. rewrite Hal. cbn.
  apply fromDict_Ok in Hinfo. rewrite Hinfo. cbn.
  rewrite (intValue_bInt _ _ _ Hpl), (intValue_None _ _ Hlen).
  rewrite Hname. cbn. rewrite Hfiles. done.
Qed.

(** X14: a panic of [files] is a panic of [Decode]: a torrent whose
    [files] list holds a non-dictionary crashes the decoder instead of being
    refused with an error. *)
Theorem Decode_panics_with_files str dict infoDict announce al pieceLength
    length isSingleFile err name p :
  Parse str = Ok (bDict dict) ->
  strValue dict "announce" = Ok announce ->
  announceList dict = Ok al ->
  get dict "info" = Some (bDict infoDict) ->
  get infoDict "piece length" = Some (bInt pieceLength) ->
  intValue infoDict "length" = (length, isSingleFile, err) ->
  (isSingleFile = true -> err = None) ->
  strValue infoDict "name" = Ok name ->
  files infoDict = Panic p ->
  Decode str = Panic p.
Proof.
  intros HP Ha Hal Hinfo Hpl Hlen Herr Hname Hfiles.
  unfold Decode. rewrite HP. cbn. rewrite Ha. cbn. rewrite Hal. cbn.
  apply fromDict_Ok in Hinfo. rewrite Hinfo. cbn.
  rewrite (intValue_bInt _ _ _ Hpl), Hlen.
  replace (if isSingleFile then err else None) with (@None string)
    by (destruct isSingleFile; [by rewrite Herr|done]).
  rewrite Hname. cbn. rewrite Hfiles. done.
Qed.

End DecodeFurther.

Example Decode_multi_file :
  @Decode Reference.bencode Reference.multi_file_torrent = Ok Reference.multi_file_info.
Proof. vm_compute. reflexivity. Qed.

Lemma Decode_mandatory_keys_witness :
  exists dict infoDict pieces,
    @Parse Reference.bencode Reference.sample_torrent = Ok (bDict dict) /\
    @get Reference.bencode dict "announce" = Some (bStr (Announce Reference.sample_info)) /\
    @get Reference.bencode dict "info" = Some (bDict infoDict) /\
    @get Reference.bencode infoDict "piece length" =
      Some (bInt (PieceSize Reference.sample_info)) /\
    @get Reference.bencode infoDict "name" = Some (bStr (Name Reference.sample_info)) /\
    @get Reference.bencode infoDict "pieces" = Some (bStr pieces) /\
    ChunkSize Reference.sample_info = 16384.
Proof.
  apply (@Decode_mandatory_keys Reference.bencode Reference.sample_torrent
           Reference.sample_info).
  vm_compute. reflexivity.
Defined.

Lemma Decode_single_or_multi_file_witness :
  exists dict infoDict,
    @Parse Reference.bencode Reference.multi_file_torrent = Ok (bDict dict) /\
    @get Reference.bencode dict "info" = Some (bDict infoDict) /\
    (@get Reference.bencode infoDict "length" =
       Some (bInt (Length Reference.multi_file_info)) \/
     (@get Reference.bencode infoDict "length" = None /\
      Length Reference.multi_file_info = 0 /\
      files_ Reference.multi_file_info <> [])).
Proof.
  apply (@Decode_single_or_multi_file Reference.bencode Reference.multi_file_torrent
           Reference.multi_file_info).
  vm_compute. reflexivity.
Defined.

Lemma Decode_multi_file_zero_pieces_witness :
  CalculateLastPieceSize Reference.multi_file_info = Ok (16, 0).
Proof.
  apply (@Decode_multi_file_zero_pieces Reference.bencode Reference.multi_file_torrent
           Reference.multi_file_info Reference.multi_file_dict
           Reference.multi_file_info_dict);
    [vm_compute; reflexivity .. | simpl; lia].
Defined.

Lemma Decode_PieceHashes_20_witness :
  Forall (fun h : list byte => List.length h = 20%nat)
         (PieceHashes Reference.sample_info).
Proof.
  apply (@Decode_PieceHashes_20 Reference.bencode Reference.sample_torrent
           Reference.sample_info).
  vm_compute. reflexivity.
Defined.

Lemma Decode_no_files_witness :
  @Decode Reference.bencode Reference.no_files_torrent =
    Err "No files to download in the torrent file".
Proof.
  apply (@Decode_no_files Reference.bencode Reference.no_files_torrent
           Reference.no_files_dict Reference.no_files_info_dict
           "http://t/a" [] 16 "f");
    vm_compute; reflexivity.
Defined.

Lemma Decode_panics_with_files_witness :
  @Decode Reference.bencode Reference.int_in_files_torrent = Panic TypeAssertion.
Proof.
  apply (@Decode_panics_with_files Reference.bencode Reference.int_in_files_torrent
           Reference.int_in_files_dict Reference.int_in_files_info_dict
           "http://t/a" [] 16 0 false
           (Some "length is missing in the dictionary") "f" TypeAssertion);
    try (vm_compute; reflexivity).
  intros Hf. discriminate Hf.
Defined.

(** ** The tracker, further *)

Section TrackerFurther.
Context `{UrlLib} `{HttpLib}.

(** X15: [NewTracker] succeeds exactly when [url.Parse] accepts the
    announce URL, and a parse error comes back prefixed with
    [Malformed URL: ]; nothing else about the torrent can make it fail. *)
Theorem NewTracker_succeeds_iff info initState conf :
  ((exists t, NewTracker info initState conf = Ok t) <->
   (exists baseURL, url_Parse (Announce info) = Ok baseURL)) /\
  (forall err, url_Parse (Announce info) = Err err ->
     NewTracker info initState conf = Err ("Malformed URL: " ++ err)).
Proof.
  unfold NewTracker, prepareURL.
  destruct (url_Parse (Announce info)) as [baseURL|e|p|]; cbn; split.
  - split; eauto.
  - done.
  - split; intros [x Hx]; done.
  - by intros err [= ->].
  - split; intros [x Hx]; done.
  - done.
  - split; intros [x Hx]; done.
  - done.
Qed.

(** X16: of the torrent, the tracker URL uses the announce URL and nothing
    else: two Infos with the same [Announce] give the same request. *)
Theorem prepareURL_uses_Announce_only initState peerID port info info' :
  Announce info = Announce info' ->
  prepareURL initState peerID port info = prepareURL initState peerID port info'.
Proof. intros Heq. unfold prepareURL. by rewrite Heq. Qed.

(** X17: the query always has the same eight keys, each with a single
    value, and always announces [compact=1] and [event=started]. *)
Theorem prepareURL_query_shape initState peerID port info :
  exists params : gmap string (list string),
    dom params = query_keys /\
    params !! "compact" = Some ["1"] /\
    params !! "event" = Some ["started"] /\
    (forall key values, params !! key = Some values -> List.length values = 1%nat) /\
    prepareURL initState peerID port info =
      match url_Parse (Announce info) with
      | Ok baseURL => Ok (URL_String (set_RawQuery (Values_Encode params) baseURL))
      | Err err => Err ("Malformed URL: " ++ err)
      | Panic p => Panic p
      | OutOfFuel => OutOfFuel
      end.
Proof.
  exists
    (Values_Add "left" (Itoa (Left initState))
    (Values_Add "downloaded" (Itoa (Downloaded initState))
    (Values_Add "uploaded" (Itoa (Uploaded initState))
    (Values_Add "event" "started"
    (Values_Add "compact" "1"
    (Values_Add "port" (Itoa port)
    (Values_Add "peer_id" peerID
    (Values_Add "info_hash" "lol" ∅)))))))).
  split_and!; [| | | |reflexivity].
  - unfold Values_Add. rewrite !dom_insert_L, dom_empty_L.
    unfold query_keys. set_solver.
  - repeat first [ rewrite Values_Add_fresh; [reflexivity|]
                 | rewrite Values_Add_other by done
                 | apply lookup_empty ].
  - repeat first [ rewrite Values_Add_fresh; [reflexivity|]
                 | rewrite Values_Add_other by done
                 | apply lookup_empty ].
  - unfold Values_Add.
    repeat (apply map_Forall_insert_2; [reflexivity|]).
    apply map_Forall_empty.
Qed.

(** X18: [Peers] returns a peer list only after a GET that succeeded with
    status 200, a body that could be read and a response that decoded; the
    list is the decoded [PeersInfo], untouched. *)
Theorem Peers_Ok_iff (t : httpTracker) (peers : list PeerInfo) :
  Peers t = Ok peers <->
  exists resp bodyStr rsp,
    http_Get (url t) = Ok resp /\
    StatusCode resp = 200 /\
    Body resp = Ok bodyStr /\
    TrackerRspDecode bodyStr = Ok rsp /\
    PeersInfo rsp = peers.
Proof.
  unfold Peers. split.
  - destruct (http_Get (url t)) as [resp| | |]; cbn; try done.
    destruct (Z.eqb_spec (StatusCode resp) 200) as [H200|]; cbn; [|done].
    destruct (Body resp) as [bodyStr| | |] eqn:Hbody; cbn; try done.
    destruct (TrackerRspDecode bodyStr) as [rsp| | |] eqn:Hdec; try done.
    intros [= <-]. by exists resp, bodyStr, rsp.
  - intros (resp & bodyStr & rsp & -> & H200 & Hbody & Hdec & <-). cbn.
    rewrite H200, Hbody. cbn. by rewrite Hdec.
Qed.

(** X19: any status other than 200 is reported as
    [Can't reach http tracker <url>], without looking at the body. *)
Theorem Peers_refuses_non_200 (t : httpTracker) resp :
  http_Get (url t) = Ok resp ->
  StatusCode resp <> 200 ->
  Peers t = Err ("Can't reach http tracker " ++ url t).
Proof.
  intros Hget Hstatus. unfold Peers. rewrite Hget. cbn.
  by destruct (Z.eqb_spec (StatusCode resp) 200).
Qed.

End TrackerFurther.

Lemma prepareURL_uses_Announce_only_witness :
  @prepareURL Reference.urls (mkState 1 2 3) "me" 6881 Reference.sample_info =
  @prepareURL Reference.urls (mkState 1 2 3) "me" 6881 Reference.multi_file_info.
Proof.
  apply (@prepareURL_uses_Announce_only Reference.urls (mkState 1 2 3) "me" 6881
           Reference.sample_info Reference.multi_file_info).
  reflexivity.
Defined.

Lemma Peers_refuses_non_200_witness :
  @Peers (Reference.http Reference.not_found) (mkHttpTracker "http://t/a") =
    Err "Can't reach http tracker http://t/a".
Proof.
  apply (@Peers_refuses_non_200 (Reference.http Reference.not_found)
           (mkHttpTracker "http://t/a") (mkResponse 404 (Ok "d5:peerslee"))).
  - reflexivity.
  - simpl. lia.
Defined.

(** ** [main], further *)

Section MainFurther.
Context `{BencodeLib} `{UrlLib} `{HttpLib} `{Process}.

(** X20: [main] drops the error of [NewTracker]: when [url.Parse] refuses
    the announce URL of a decoded torrent (one that starts with a colon, for
    instance), nothing is printed and the call of [Peers] on the nil tracker
    is a nil-dereference panic. *)
Theorem main_nil_tracker_panics data info err :
  ReadFile (TorrentPath NewConf) = Ok data ->
  Decode data = Ok info ->
  url_Parse (Announce info) = Err err ->
  main = Crashed NilDereference.
Proof.
  intros Hread Hdecode Hparse. unfold main. rewrite Hread, Hdecode.
  unfold NewTracker, prepareURL. by rewrite Hparse.
Qed.

(** X21: [main] reaches the network exactly when the file was read, the
    torrent decoded, the tracker was built and answered with a non-empty peer
    list; it then contacts the first peer of the list and no other. *)
Theorem main_SentTo_iff (peer : PeerInfo) :
  main = SentTo peer <->
  exists data info t peers,
    ReadFile (TorrentPath NewConf) = Ok data /\
    Decode data = Ok info /\
    NewTracker info NewInitState NewConf = Ok t /\
    Peers t = Ok (peer :: peers).
Proof.
  unfold main. split.
  - destruct (ReadFile (TorrentPath NewConf)) as [data| | |] eqn:Hread; try done.
    destruct (Decode data) as [info| | |] eqn:Hdecode; try done.
    destruct (NewTracker info NewInitState NewConf) as [t| | |] eqn:Ht; try done.
    destruct (Peers t) as [[|peer0 peers]| | |] eqn:Hpeers; try done.
    intros [= <-]. by exists data, info, t, peers.
  - intros (data & info & t & peers & -> & -> & -> & ->). done.
Qed.

(** X22: [main] prints and returns in three cases only: the file could
    not be read (the message is prefixed with [File reading error]), the
    torrent did not decode, or the tracker round trip failed. *)
Theorem main_Printed_iff (line : string) :
  main = Printed line <->
  (exists err, ReadFile (TorrentPath NewConf) = Err err /\
               line = ("File reading error " ++ err)%string) \/
  (exists data, ReadFile (TorrentPath NewConf) = Ok data /\
                Decode data = Err line) \/
  (exists data info t,
     ReadFile (TorrentPath NewConf) = Ok data /\
     Decode data = Ok info /\
     NewTracker info NewInitState NewConf = Ok t /\
     Peers t = Err line).
Proof.
  unfold main. split.
  - destruct (ReadFile (TorrentPath NewConf)) as [data|err| |] eqn:Hread; try done.
    + destruct (Decode data) as [info|e| |] eqn:Hdecode; try done.
      * destruct (NewTracker info NewInitState NewConf) as [t| | |] eqn:Ht; try done.
        destruct (Peers t) as [[|peer0 peers]|e| |] eqn:Hpeers; try done.
        intros [= <-]. right. right. by exists data, info, t.
      * intros [= <-]. right. left. by exists data.
    + intros [= <-]. left. by exists err.
  - intros [(err & -> & ->) | [(data & -> & ->) | (data & info & t & -> & -> & -> & ->)]];
      done.
Qed.

(** X23: the ways [main] aborts: a panic of one of its calls, the nil
    tracker left by a failed [NewTracker], or an empty peer list. *)
Theorem main_Crashed_iff (p : panic) :
  main = Crashed p <->
  ReadFile (TorrentPath NewConf) = Panic p \/
  exists data,
    ReadFile (TorrentPath NewConf) = Ok data /\
    (Decode data = Panic p \/
     exists info,
       Decode data = Ok info /\
       (NewTracker info NewInitState NewConf = Panic p \/
        (p = NilDereference /\
         exists err, NewTracker info NewInitState NewConf = Err err) \/
        exists t,
          NewTracker info NewInitState NewConf = Ok t /\
          (Peers t = Panic p \/ (p = IndexOutOfRange /\ Peers t = Ok [])))).
Proof.
  unfold main. split.
  - destruct (ReadFile (TorrentPath NewConf)) as [data| |p'|] eqn:Hread; try done.
    + intros Hmain. right. exists data. split; [done|].
      destruct (Decode data) as [info| |p'|] eqn:Hdecode; try done.
      * right. exists info. split; [done|].
        destruct (NewTracker info NewInitState NewConf) as [t|e|p'|] eqn:Ht; try done.
        -- right. right. exists t. split; [done|].
           destruct (Peers t) as [[|peer0 peers]| |p'|] eqn:Hpeers; try done.
           ++ injection Hmain as <-. by right.
           ++ injection Hmain as <-. by left.
        -- injection Hmain as <-. right. left. eauto.
        -- injection Hmain as <-. by left.
      * injection Hmain as <-. by left.
    + intros [= <-]. by left.
  - intros [-> | (data & -> & [-> | (info & -> & [-> | [(-> & err & ->) |
      (t & -> & [-> | (-> & ->)])]])])]; done.
Qed.

End MainFurther.

Example Decode_no_scheme :
  @Decode Reference.bencode Reference.no_scheme_torrent = Ok Reference.no_scheme_info.
Proof. vm_compute. reflexivity. Qed.

Lemma main_nil_tracker_panics_witness :
  @main Reference.bencode Reference.urls (Reference.http Reference.one_peer)
        (Reference.process (Ok Reference.no_scheme_torrent))
  = Crashed NilDereference.
Proof.
  apply (@main_nil_tracker_panics
           Reference.bencode Reference.urls (Reference.http Reference.one_peer)
           (Reference.process (Ok Reference.no_scheme_torrent))
           Reference.no_scheme_torrent Reference.no_scheme_info
           Reference.no_scheme_error);
    vm_compute; reflexivity.
Defined.

(** ** The peer session, further *)

Section PeerFurther.
Context `{PacketCodec}.

Lemma NewPacket_reply pkt p :
  map packet (net (NewPacket pkt p)) =
    map packet (net p) ++ option_list (reply pkt).
Proof.
  unfold NewPacket, reply.
  destruct (ID pkt); cbn;
    try destruct (decodeRequest (Payload pkt)) as [[piece offset] size];
    try destruct (decodePiece (Payload pkt)) as [[piece' offset'] payload];
    cbn; rewrite ?map_app, ?app_nil_r; done.
Qed.

(** X24: what the session sends is a stateless function of what it
    receives: one request for piece 0, offset 0, length 16384 per Unchoke, one
    Interested per Have and per Bitfield, in arrival order, and nothing for
    any other packet. Earlier transmissions are never removed or reordered. *)
Theorem receive_replies (pkts : list Packet) (p : simplePeer) :
  map packet (net (receive pkts p)) = map packet (net p) ++ omap reply pkts.
Proof.
  revert p. induction pkts as [|pkt pkts IH]; intros p.
  - cbn. by rewrite app_nil_r.
  - rewrite receive_cons, IH, NewPacket_reply. cbn [omap list_omap].
    rewrite <- app_assoc. by destruct (reply pkt).
Qed.

Lemma NewPacket_state pkt p :
  chocked (NewPacket pkt p) =
    last_flag PacketID.choke PacketID.unchoke [pkt] (chocked p) /\
  interested (NewPacket pkt p) =
    last_flag PacketID.interested PacketID.notInterested [pkt] (interested p) /\
  bitfield (NewPacket pkt p) = last_bitfield [pkt] (bitfield p) /\
  msgs (NewPacket pkt p) = msgs p.
Proof.
  unfold NewPacket, last_flag, last_bitfield. cbn [fold_left].
  destruct (ID pkt); cbn; try done.
  - by destruct (decodeRequest (Payload pkt)) as [[piece offset] size].
  - by destruct (decodePiece (Payload pkt)) as [[piece offset] payload].
Qed.

(** X25: after any packet sequence the session's state is: [chocked] as
    the last Choke or Unchoke left it, [interested] as the last Interested or
    NotInterested left it, [bitfield] the payload of the last Bitfield packet
    (Have packets never change it), each at its initial value when no such
    packet came; and nothing was written to the [msgs] channel. *)
Theorem receive_state (pkts : list Packet) (p : simplePeer) :
  chocked (receive pkts p) =
    last_flag PacketID.choke PacketID.unchoke pkts (chocked p) /\
  interested (receive pkts p) =
    last_flag PacketID.interested PacketID.notInterested pkts (interested p) /\
  bitfield (receive pkts p) = last_bitfield pkts (bitfield p) /\
  msgs (receive pkts p) = msgs p.
Proof.
  revert p. induction pkts as [|pkt pkts IH]; intros p; [done|].
  rewrite receive_cons.
  destruct (IH (NewPacket pkt p)) as (-> & -> & -> & ->).
  destruct (NewPacket_state pkt p) as (-> & -> & -> & ->). done.
Qed.

(** X26: KeepAlive, Request, Piece, Cancel, Port and unknown packets are
    dropped: a sequence of them leaves the session exactly as it was, so a
    peer's Request is never answered with a Piece. *)
Theorem receive_ignored (pkts : list Packet) (p : simplePeer) :
  forallb ignored pkts = true -> receive pkts p = p.
Proof.
  revert p. induction pkts as [|pkt pkts IH]; intros p Hall; [done|].
  cbn [forallb] in Hall. apply andb_prop in Hall as [Hpkt Hall].
  rewrite receive_cons. rewrite <- (IH p Hall) at 2. f_equal.
  unfold ignored in Hpkt. unfold NewPacket.
  destruct (ID pkt); try done.
  - by destruct (decodeRequest (Payload pkt)) as [[piece offset] size].
  - by destruct (decodePiece (Payload pkt)) as [[piece offset] payload].
Qed.

End PeerFurther.

Lemma receive_ignored_witness :
  @receive Reference.codec
    [mkPacket PacketID.request [x00; x00; x00; x00; x00; x00; x00; x00; x00; x00; x40; x00];
     mkPacket PacketID.keepAlaive []; mkPacket PacketID.cancel []]
    newPeer = newPeer.
Proof.
  apply (@receive_ignored Reference.codec
    [mkPacket PacketID.request [x00; x00; x00; x00; x00; x00; x00; x00; x00; x00; x40; x00];
     mkPacket PacketID.keepAlaive []; mkPacket PacketID.cancel []] newPeer).
  reflexivity.
Defined.

Example receive_conversation_state :
  let p := @receive Reference.codec Reference.conversation newPeer in
  (chocked p, interested p, bitfield p) = (false, false, [xff; x80]).
Proof. reflexivity. Qed.
